(** * Review-app revisions on a container-hosting resource: a model of
    [src/main.ts] and the properties of its traffic reconciliation,
    envelope construction and deactivation protocol.

    The action is one asynchronous function [main] and a helper
    [deactivateRevision].  Both are embedded here as programs of a small
    state-and-exception monad:

    - the state holds the JavaScript objects of type [TrafficWeight] that
      the program shares between the snapshot it read and the list it
      submits (a store addressed by references), the control-plane calls
      issued so far, and the outputs set on the workflow;
    - an exception is a thrown [Error] or a [TypeError]; the state survives
      it, so that what was done before the failure stays observable.

    Strings are [string]; a character stands for one UTF-16 code unit, which
    is what [String.prototype.length] counts (resource names are ASCII).
    Weights, ports and replica counts are integers ([Z]); the only place
    where a non-integer number can arise is the sum of [deactivateRevision],
    which adds [undefined] and gets NaN: see [jsnum]. *)

From Stdlib Require Import ZArith String List Bool Lia.
From stdpp Require Import base list strings.

Open Scope string_scope.
Open Scope list_scope.
Open Scope Z_scope.

(** ** Data model *)

(** Opaque JSON payloads that the program only passes along (Dapr settings,
    custom domains). *)
#[warnings="-register-all"]
Inductive json :=
| JNull
| JBool (b : bool)
| JNum (z : Z)
| JStr (s : string)
| JArr (items : list json)
| JObj (fields : list (string * json)).

(** [TrafficWeight] of [@azure/arm-appcontainers]: every property is
    optional, [None] is [undefined]. *)
Record TrafficWeight := mkTrafficWeight {
  revisionName : option string;
  weight : option Z;
  latestRevision : option bool;
  label : option string
}.

(** [Revision], as far as the program reads it. *)
Record Revision := mkRevision {
  active : option bool;
  fqdn : option string
}.

(** The snapshot returned by [containerApps.get].  [T] is what a traffic
    entry is: a value in the response of the control plane, a reference to
    an object once the response lives in memory. *)
Record Ingress (T : Type) := mkIngress {
  external : option bool;
  targetPort : option Z;
  traffic : option (list T);
  customDomains : option (list json)
}.
Arguments mkIngress {T}.
Arguments external {T}.
Arguments targetPort {T}.
Arguments traffic {T}.
Arguments customDomains {T}.

Record Configuration (T : Type) := mkConfiguration {
  ingress : option (Ingress T);
  dapr : option json
}.
Arguments mkConfiguration {T}.
Arguments ingress {T}.
Arguments dapr {T}.

Record Scale := mkScale {
  maxReplicas : option Z;
  minReplicas : option Z
}.

Record Template := mkTemplate {
  scale : option Scale
}.

Record ContainerApp (T : Type) := mkContainerApp {
  configuration : option (Configuration T);
  template : option Template;
  location : string;
  managedEnvironmentId : option string;
  latestRevisionName : option string
}.
Arguments mkContainerApp {T}.
Arguments configuration {T}.
Arguments template {T}.
Arguments location {T}.
Arguments managedEnvironmentId {T}.
Arguments latestRevisionName {T}.

Record TaskParameters := mkTaskParameters {
  resourceGroup : string;
  containerAppName : string;
  revisionNameSuffix : string;
  imageName : string;
  subscriptionId : string;
  deactivateRevisionMode : bool
}.

(** The desired state that [main] submits. *)
Record IngressConfig (T : Type) := mkIngressConfig {
  ic_external : option bool;
  ic_targetPort : option Z;
  ic_traffic : list T;
  ic_customDomains : list json
}.
Arguments mkIngressConfig {T}.
Arguments ic_external {T}.
Arguments ic_targetPort {T}.
Arguments ic_traffic {T}.
Arguments ic_customDomains {T}.

(** [nc_ingress = None] is the object without an [ingress] property. *)
Record NetworkConfig (T : Type) := mkNetworkConfig {
  nc_dapr : option json;
  nc_ingress : option (IngressConfig T);
  nc_activeRevisionsMode : string
}.
Arguments mkNetworkConfig {T}.
Arguments nc_dapr {T}.
Arguments nc_ingress {T}.
Arguments nc_activeRevisionsMode {T}.

Record ScaleRule := mkScaleRule {
  sr_name : string;
  sr_custom_type : string;
  sr_custom_metadata : list (string * string)
}.

Record ScaleConfig := mkScaleConfig {
  sc_maxReplicas : option Z;
  sc_minReplicas : option Z;
  sc_rules : list ScaleRule
}.

Record ContainerConfig := mkContainerConfig {
  cc_name : string;
  cc_image : string
}.

Record EnvelopeTemplate := mkEnvelopeTemplate {
  et_containers : list ContainerConfig;
  et_scale : ScaleConfig;
  et_revisionSuffix : string
}.

Record Envelope (T : Type) := mkEnvelope {
  env_configuration : NetworkConfig T;
  env_location : string;
  env_managedEnvironmentId : option string;
  env_template : EnvelopeTemplate
}.
Arguments mkEnvelope {T}.
Arguments env_configuration {T}.
Arguments env_location {T}.
Arguments env_managedEnvironmentId {T}.
Arguments env_template {T}.

(** ** Errors, calls and state *)

(** What the program can throw.  The first five are the [Error]s and the
    [TypeError] of the source, an [Error] being told by its message:
    [RevisionNameTooLong] is the one of line 28 (the specification's
    InvalidConfiguration), [FailedToAddRevision] the one of line 136
    (DeploymentFailed), [TrafficWeightNotZero] the one of line 161
    (UnsafeDeactivation), [CannotBeDeactivated] the one of line 173
    (DeactivationNotConfirmed).  [ClientError] is a rejection of a
    control-plane call; [DanglingReference] is the model's own (a reference
    to no object, which no JavaScript program can hold). *)
Inductive Error :=
| RevisionNameTooLong (name : string) (len : nat)
| TypeError
| FailedToAddRevision (name : string)
| TrafficWeightNotZero (revision app : string)
| CannotBeDeactivated (revision app : string)
| ClientError (msg : string)
| DanglingReference.

Inductive result (A : Type) :=
| Ok (a : A)
| Throw (e : Error).
Arguments Ok {A}.
Arguments Throw {A}.

(** A call on the control-plane client, with its arguments; an envelope is
    recorded as it is serialised when the call is made. *)
Inductive Call :=
| CallGet (rg app : string)
| CallUpdate (rg app : string) (envelope : Envelope TrafficWeight)
| CallGetRevision (rg app revision : string)
| CallDeactivate (rg app revision : string).

(** The control plane answers a call knowing the calls made before it. *)
Record ControlPlane := mkControlPlane {
  cp_get : list Call -> string -> string -> result (ContainerApp TrafficWeight);
  cp_beginUpdateAndWait :
    list Call -> string -> string -> Envelope TrafficWeight -> result unit;
  cp_getRevision :
    list Call -> string -> string -> string -> result (option Revision);
  cp_deactivateRevision : list Call -> string -> string -> string -> result unit
}.

Abbreviation loc := nat.

Record State := mkState {
  heap : list TrafficWeight;
  calls : list Call;
  outputs : list (string * string)
}.

Definition initial : State := mkState [] [] [].

(** ** The monad *)

Definition M (A : Type) : Type := State -> result A * State.

Definition ret {A} (a : A) : M A := fun s => (Ok a, s).

Definition throw {A} (e : Error) : M A := fun s => (Throw e, s).

Definition bind {A B} (m : M A) (k : A -> M B) : M B :=
  fun s =>
    match m s with
    | (Ok a, s') => k a s'
    | (Throw e, s') => (Throw e, s')
    end.

Notation "x <- c1 ;; c2" := (bind c1 (fun x => c2))
  (at level 100, c1 at next level, right associativity).
Notation "c1 ;; c2" := (bind c1 (fun _ => c2))
  (at level 100, right associativity).

(** [x.p] where [x] may be [undefined]: a [TypeError]. *)
Definition nonnull {A} (x : option A) : M A :=
  match x with
  | Some a => ret a
  | None => throw TypeError
  end.

Definition lift {A} (r : result A) : M A := fun s => (r, s).

(** *** The store *)

Definition load (l : loc) : M TrafficWeight :=
  fun s =>
    match heap s !! l with
    | Some v => (Ok v, s)
    | None => (Throw DanglingReference, s)
    end.

Definition store (l : loc) (v : TrafficWeight) : M unit :=
  fun s => (Ok tt, mkState (<[l := v]> (heap s)) (calls s) (outputs s)).

(** A new object: the next free reference. *)
Definition alloc (v : TrafficWeight) : M loc :=
  fun s => (Ok (length (heap s)), mkState (heap s ++ [v]) (calls s) (outputs s)).

Fixpoint alloc_array (vs : list TrafficWeight) : M (list loc) :=
  match vs with
  | [] => ret []
  | v :: vs' =>
      l <- alloc v ;;
      ls <- alloc_array vs' ;;
      ret (l :: ls)
  end.

(** The values an array of references holds in a store. *)
Fixpoint read_array (h : list TrafficWeight) (arr : list loc)
  : option (list TrafficWeight) :=
  match arr with
  | [] => Some []
  | l :: arr' =>
      match h !! l, read_array h arr' with
      | Some v, Some vs => Some (v :: vs)
      | _, _ => None
      end
  end.

Definition serialize_array (arr : list loc) : M (list TrafficWeight) :=
  fun s =>
    match read_array (heap s) arr with
    | Some vs => (Ok vs, s)
    | None => (Throw DanglingReference, s)
    end.

(** [traffic.latestRevision = b] and [traffic.revisionName = n]. *)
Definition set_latestRevision (l : loc) (b : bool) : M unit :=
  t <- load l ;;
  store l (mkTrafficWeight (revisionName t) (weight t) (Some b) (label t)).

Definition set_revisionName (l : loc) (n : option string) : M unit :=
  t <- load l ;;
  store l (mkTrafficWeight n (weight t) (latestRevision t) (label t)).

(** *** Control-plane calls and workflow outputs *)

Definition history : M (list Call) := fun s => (Ok (calls s), s).

Definition record_call (c : Call) : M unit :=
  fun s => (Ok tt, mkState (heap s) (calls s ++ [c]) (outputs s)).

(** [core.setOutput(name, value)]. *)
Definition setOutput (name value : string) : M unit :=
  fun s => (Ok tt, mkState (heap s) (calls s) (outputs s ++ [(name, value)])).

(** The response of [get] becomes objects in memory: one new object per
    traffic entry. *)
Definition materialize_ingress (ing : Ingress TrafficWeight) : M (Ingress loc) :=
  match traffic ing with
  | None =>
      ret (mkIngress (external ing) (targetPort ing) None (customDomains ing))
  | Some vs =>
      arr <- alloc_array vs ;;
      ret (mkIngress (external ing) (targetPort ing) (Some arr) (customDomains ing))
  end.

Definition materialize_configuration (cfg : Configuration TrafficWeight)
  : M (Configuration loc) :=
  match ingress cfg with
  | None => ret (mkConfiguration None (dapr cfg))
  | Some ing =>
      ing' <- materialize_ingress ing ;;
      ret (mkConfiguration (Some ing') (dapr cfg))
  end.

Definition materialize (app : ContainerApp TrafficWeight) : M (ContainerApp loc) :=
  match configuration app with
  | None =>
      ret (mkContainerApp None (template app) (location app)
             (managedEnvironmentId app) (latestRevisionName app))
  | Some cfg =>
      cfg' <- materialize_configuration cfg ;;
      ret (mkContainerApp (Some cfg') (template app) (location app)
             (managedEnvironmentId app) (latestRevisionName app))
  end.

Definition serialize_ingressConfig (ic : IngressConfig loc)
  : M (IngressConfig TrafficWeight) :=
  vs <- serialize_array (ic_traffic ic) ;;
  ret (mkIngressConfig (ic_external ic) (ic_targetPort ic) vs (ic_customDomains ic)).

Definition serialize_envelope (e : Envelope loc) : M (Envelope TrafficWeight) :=
  let nc := env_configuration e in
  match nc_ingress nc with
  | None =>
      ret (mkEnvelope (mkNetworkConfig (nc_dapr nc) None (nc_activeRevisionsMode nc))
             (env_location e) (env_managedEnvironmentId e) (env_template e))
  | Some ic =>
      ic' <- serialize_ingressConfig ic ;;
      ret (mkEnvelope
             (mkNetworkConfig (nc_dapr nc) (Some ic') (nc_activeRevisionsMode nc))
             (env_location e) (env_managedEnvironmentId e) (env_template e))
  end.

Section Client.
Variable client : ControlPlane.

(** [client.containerApps.get(resourceGroup, containerAppName)] *)
Definition containerApps_get (rg app : string) : M (ContainerApp loc) :=
  past <- history ;;
  record_call (CallGet rg app) ;;
  response <- lift (cp_get client past rg app) ;;
  materialize response.

(** [client.containerApps.beginUpdateAndWait(resourceGroup, name, envelope)] *)
Definition containerApps_beginUpdateAndWait
    (rg app : string) (envelope : Envelope loc) : M unit :=
  body <- serialize_envelope envelope ;;
  past <- history ;;
  record_call (CallUpdate rg app body) ;;
  lift (cp_beginUpdateAndWait client past rg app body).

(** [client.containerAppsRevisions.getRevision(resourceGroup, name, revision)] *)
Definition containerAppsRevisions_getRevision
    (rg app revision : string) : M (option Revision) :=
  past <- history ;;
  record_call (CallGetRevision rg app revision) ;;
  lift (cp_getRevision client past rg app revision).

(** [client.containerAppsRevisions.deactivateRevision(resourceGroup, name,
    revision)] *)
Definition containerAppsRevisions_deactivateRevision
    (rg app revision : string) : M unit :=
  past <- history ;;
  record_call (CallDeactivate rg app revision) ;;
  lift (cp_deactivateRevision client past rg app revision).
End Client.

(** ** JavaScript values in conditions *)

(** [!!n] for a number that may be [undefined]. *)
Definition truthy_number (n : option Z) : bool :=
  match n with
  | Some z => negb (Z.eqb z 0)
  | None => false
  end.

(** [n === 0] *)
Definition is_zero (n : option Z) : bool :=
  match n with
  | Some z => Z.eqb z 0
  | None => false
  end.

(** [!!b] for a boolean that may be [undefined]; also [b == true]. *)
Definition truthy_boolean (b : option bool) : bool :=
  match b with
  | Some true => true
  | _ => false
  end.

(** [b == false] *)
Definition loosely_false (b : option bool) : bool :=
  match b with
  | Some false => true
  | _ => false
  end.

(** [b == undefined] *)
Definition loosely_undefined {A} (x : option A) : bool :=
  match x with
  | None => true
  | Some _ => false
  end.

(** [!!s] for a string that may be [undefined]. *)
Definition truthy_string (s : option string) : bool :=
  match s with
  | Some s => negb (String.eqb s "")
  | None => false
  end.

(** [a === b] for a string property that may be [undefined] and a string. *)
Definition strictly_equal (a : option string) (b : string) : bool :=
  match a with
  | Some a => String.eqb a b
  | None => false
  end.

(** Numbers of the sum in [deactivateRevision]: an integer or NaN. *)
Inductive jsnum :=
| Num (z : Z)
| NaN.

(** [prev + curr.weight]: adding [undefined] gives NaN, and NaN stays. *)
Definition js_add (prev : jsnum) (w : option Z) : jsnum :=
  match prev, w with
  | Num a, Some b => Num (a + b)
  | _, _ => NaN
  end.

(** [n !== 0] *)
Definition not_zero (n : jsnum) : bool :=
  match n with
  | Num z => negb (Z.eqb z 0)
  | NaN => true
  end.

(** ** The program *)

Definition MAX_REVISION_NAME_LENGTH : nat := 63.

(** The name of the revision, as [main] composes it (line 27). *)
Definition composed_name (taskParams : TaskParameters) : string :=
  containerAppName taskParams +:+ "--" +:+ revisionNameSuffix taskParams.

(** The callback of [filter] (lines 46-53): it answers whether the entry is
    kept, and on the way rewrites a kept entry that floats on the latest
    revision -- an assignment to the object the snapshot holds. *)
Definition filter_callback (latest : option string) (l : loc) : M bool :=
  t <- load l ;;
  if negb (truthy_number (weight t)) || is_zero (weight t) then ret false
  else if truthy_boolean (latestRevision t) then
    set_latestRevision l false ;;
    set_revisionName l latest ;;
    ret true
  else ret true.

(** [Array.prototype.filter]: a new array of the elements, in order, for
    which the callback answers true. *)
Fixpoint array_filter (callback : loc -> M bool) (arr : list loc) : M (list loc) :=
  match arr with
  | [] => ret []
  | l :: arr' =>
      keep <- callback l ;;
      rest <- array_filter callback arr' ;;
      ret (if keep then l :: rest else rest)
  end.

(** The entry pushed for the new revision (lines 54-58). *)
Definition new_entry (name : string) : TrafficWeight :=
  mkTrafficWeight (Some name) (Some 0) (Some false) None.

(** Lines 46-58 of [main]: the filtered array (the [|| []] after it never
    applies, an array being truthy) and the [push]. *)
Definition reconcileTraffic
    (latest : option string) (name : string) (arr : list loc) : M (list loc) :=
  traffics <- array_filter (filter_callback latest) arr ;;
  added <- alloc (new_entry name) ;;
  ret (traffics ++ [added]).

(** Lines 60-70. *)
Definition ingressConfig_of (ing : Ingress loc) (traffics : list loc)
  : IngressConfig loc :=
  mkIngressConfig (external ing) (targetPort ing) traffics
    (match customDomains ing with Some ds => ds | None => [] end).

(** Lines 72-88; the rule is a constant of the program. *)
Definition httpscalingrule : ScaleRule :=
  mkScaleRule "httpscalingrule" "http" [("concurrentRequests", "50")].

Definition scaleConfig_of (sc : Scale) : ScaleConfig :=
  mkScaleConfig (maxReplicas sc) (minReplicas sc) [httpscalingrule].

(** Lines 90-101: the [ingress] property is set, then deleted when
    [external] is loosely false or undefined. *)
Definition delete_ingress {T} (nc : NetworkConfig T) : NetworkConfig T :=
  mkNetworkConfig (nc_dapr nc) None (nc_activeRevisionsMode nc).

Definition networkConfig_of (cfg : Configuration loc) (ingressConfig : IngressConfig loc)
  : NetworkConfig loc :=
  let networkConfig := mkNetworkConfig (dapr cfg) (Some ingressConfig) "Multiple" in
  if loosely_false (ic_external ingressConfig)
     || loosely_undefined (ic_external ingressConfig)
  then delete_ingress networkConfig
  else networkConfig.

(** Lines 103-119. *)
Definition containerAppEnvelope_of
    (taskParams : TaskParameters) (app : ContainerApp loc)
    (networkConfig : NetworkConfig loc) (scaleConfig : ScaleConfig) : Envelope loc :=
  mkEnvelope networkConfig (location app) (managedEnvironmentId app)
    (mkEnvelopeTemplate
       [mkContainerConfig (containerAppName taskParams) (imageName taskParams)]
       scaleConfig
       (revisionNameSuffix taskParams)).

Section Program.
Variable client : ControlPlane.

(** [deactivateRevision(params)] (lines 155-177).  The entries of
    [traffic] are only read, so the function takes their values. *)
Definition deactivateRevision
    (rg app : string) (traffic : list TrafficWeight) (name : string) : M unit :=
  let targetRevisions :=
    List.filter (fun r => strictly_equal (revisionName r) name) traffic in
  (if (0 <? length targetRevisions)%nat
      && not_zero (fold_left (fun prev curr => js_add prev (weight curr))
                     targetRevisions (Num 0))
   then throw (TrafficWeightNotZero name app)
   else ret tt) ;;
  containerAppsRevisions_deactivateRevision client rg app name ;;
  deactiveRevision <- containerAppsRevisions_getRevision client rg app name ;;
  revision <- nonnull deactiveRevision ;;
  if truthy_boolean (active revision)
  then throw (CannotBeDeactivated name app)
  else ret tt.

(** [configuration?.ingress?.traffic || []] (line 40), read. *)
Definition traffic_or_empty (app : ContainerApp loc) : M (list TrafficWeight) :=
  match configuration app with
  | Some cfg =>
      match ingress cfg with
      | Some ing =>
          match traffic ing with
          | Some arr => serialize_array arr
          | None => ret []
          end
      | None => ret []
      end
  | None => ret []
  end.

(** The [try] block of [main], from line 27 on: what comes before it
    (the user-agent variable, the credentials, the task parameters) is
    not modelled.  [console.log] is left out. *)
Definition main_try (taskParams : TaskParameters) : M unit :=
  let name := composed_name taskParams in
  (if (MAX_REVISION_NAME_LENGTH <? String.length name)%nat
   then throw (RevisionNameTooLong name (String.length name))
   else ret tt) ;;
  currentAppProperty <-
    containerApps_get client (resourceGroup taskParams) (containerAppName taskParams) ;;
  if deactivateRevisionMode taskParams then
    entries <- traffic_or_empty currentAppProperty ;;
    deactivateRevision (resourceGroup taskParams) (containerAppName taskParams)
      entries name
  else
    cfg <- nonnull (configuration currentAppProperty) ;;
    ing <- nonnull (ingress cfg) ;;
    arr <- nonnull (traffic ing) ;;
    traffics <- reconcileTraffic (latestRevisionName currentAppProperty) name arr ;;
    let ingressConfig := ingressConfig_of ing traffics in
    tmpl <- nonnull (template currentAppProperty) ;;
    sc <- nonnull (scale tmpl) ;;
    let scaleConfig := scaleConfig_of sc in
    let networkConfig := networkConfig_of cfg ingressConfig in
    let containerAppEnvelope :=
      containerAppEnvelope_of taskParams currentAppProperty networkConfig scaleConfig in
    containerApps_beginUpdateAndWait client
      (resourceGroup taskParams) (containerAppName taskParams) containerAppEnvelope ;;
    addedRevision <-
      containerAppsRevisions_getRevision client
        (resourceGroup taskParams) (containerAppName taskParams) name ;;
    match addedRevision with
    | None => throw (FailedToAddRevision name)
    | Some revision =>
        if truthy_boolean (ic_external ingressConfig) && truthy_string (fqdn revision)
        then
          setOutput "app-url"
            ("https://" +:+ (match fqdn revision with Some f => f | None => "" end)
               +:+ "/")
        else ret tt
    end.

(** [main]: the run from a fresh process.  [Throw e] in the result is the
    [catch] block, which reports [e] with [core.setFailed]. *)
Definition main (taskParams : TaskParameters) : result unit * State :=
  main_try taskParams initial.
End Program.

(** ** What the reconciler does to an entry *)

(** The answer of the callback on an entry: kept when its weight is set
    and not zero. *)
Definition carried_over (t : TrafficWeight) : bool :=
  negb (negb (truthy_number (weight t)) || is_zero (weight t)).

(** A kept entry after the callback: one that floats on the latest
    revision is pinned to it by name. *)
Definition pinned (latest : option string) (t : TrafficWeight) : TrafficWeight :=
  if truthy_boolean (latestRevision t)
  then mkTrafficWeight latest (weight t) (Some false) (label t)
  else t.

(** Any entry after the callback. *)
Definition rewritten (latest : option string) (t : TrafficWeight) : TrafficWeight :=
  if carried_over t then pinned latest t else t.

(** The weight a list routes: an entry without a weight routes nothing. *)
Definition total_weight (ts : list TrafficWeight) : Z :=
  fold_right (fun t acc => (match weight t with Some w => w | None => 0 end) + acc) 0 ts.

(** Whether the object at [l] is kept. *)
Definition kept_at (h : list TrafficWeight) (l : loc) : bool :=
  match h !! l with
  | Some t => carried_over t
  | None => false
  end.

(** The sum that [deactivateRevision] compares with zero. *)
Definition target_weight (traffic : list TrafficWeight) (name : string) : jsnum :=
  fold_left (fun prev curr => js_add prev (weight curr))
    (List.filter (fun r => strictly_equal (revisionName r) name) traffic) (Num 0).

(** ** What a run reads and submits *)

(** The traffic list of a response, as line 40 reads it. *)
Definition response_traffic (snapshot : ContainerApp TrafficWeight)
  : list TrafficWeight :=
  match configuration snapshot with
  | Some cfg =>
      match ingress cfg with
      | Some ing => match traffic ing with Some vs => vs | None => [] end
      | None => []
      end
  | None => []
  end.

(** The body of the update that a run submits for a snapshot whose parts
    are all there. *)
Definition submitted_envelope
    (taskParams : TaskParameters) (snapshot : ContainerApp TrafficWeight)
    (cfg : Configuration TrafficWeight) (ing : Ingress TrafficWeight)
    (vs : list TrafficWeight) (sc : Scale) : Envelope TrafficWeight :=
  mkEnvelope
    (mkNetworkConfig (dapr cfg)
       (if truthy_boolean (external ing)
        then Some (mkIngressConfig (external ing) (targetPort ing)
                     (map (pinned (latestRevisionName snapshot))
                        (List.filter carried_over vs)
                      ++ [new_entry (composed_name taskParams)])
                     (match customDomains ing with Some ds => ds | None => [] end))
        else None)
       "Multiple")
    (location snapshot) (managedEnvironmentId snapshot)
    (mkEnvelopeTemplate
       [mkContainerConfig (containerAppName taskParams) (imageName taskParams)]
       (scaleConfig_of sc)
       (revisionNameSuffix taskParams)).

(** Calls are only ever added to the record. *)
Definition grows {A} (m : M A) : Prop :=
  forall s, exists rest, calls (snd (m s)) = calls s ++ rest.

(** ** Sample inputs *)

(** A store and an array to try the reconciler on: a fixed revision at half
    the traffic, a stale entry, and the floating alias at the other half. *)
Definition sample_entries : list TrafficWeight :=
  [ mkTrafficWeight (Some "app--old0") (Some 50) (Some false) None;
    mkTrafficWeight (Some "app--gone") (Some 0) None None;
    mkTrafficWeight None (Some 50) (Some true) None ].

Definition sample_state : State := mkState sample_entries [] [].

Definition sample_array : list loc := [0%nat; 1%nat; 2%nat].

(** The floating alias beside a fixed entry for the revision it resolves
    to. *)
Definition alias_beside_fixed : State :=
  mkState
    [ mkTrafficWeight (Some "app--old1") (Some 50) (Some false) None;
      mkTrafficWeight None (Some 50) (Some true) None ]
    [] [].

(** All the traffic on the floating alias. *)
Definition floating_only : State :=
  mkState [ mkTrafficWeight None (Some 100) (Some true) None ] [] [].

(** A control plane to try the program on.  It answers [get] with a
    snapshot, accepts updates and deactivations, and reports a revision as
    active until a deactivation has been requested. *)
Definition is_deactivation (c : Call) : bool :=
  match c with
  | CallDeactivate _ _ _ => true
  | _ => false
  end.

Definition sample_client (snapshot : ContainerApp TrafficWeight) : ControlPlane :=
  mkControlPlane
    (fun _ _ _ => Ok snapshot)
    (fun _ _ _ _ => Ok tt)
    (fun past _ _ _ =>
       Ok (Some (mkRevision (Some (negb (existsb is_deactivation past)))
                   (Some "app-abc1234.example.com"))))
    (fun _ _ _ _ => Ok tt).

(** The snapshot of the end-to-end scenario: external ingress on port 80,
    all the traffic on the floating alias. *)
Definition sample_snapshot : ContainerApp TrafficWeight :=
  mkContainerApp
    (Some (mkConfiguration
             (Some (mkIngress (Some true) (Some 80)
                      (Some [mkTrafficWeight None (Some 100) (Some true) None])
                      None))
             None))
    (Some (mkTemplate (Some (mkScale (Some 10) (Some 0)))))
    "japaneast" (Some "env") (Some "app--old1").

(** The task parameters of the end-to-end scenario. *)
Definition sample_taskParams : TaskParameters :=
  mkTaskParameters "rg" "app" "abc1234" "registry/image:tag" "sub" false.

(** A snapshot with external ingress and no traffic list. *)
Definition snapshot_without_traffic : ContainerApp TrafficWeight :=
  mkContainerApp
    (Some (mkConfiguration (Some (mkIngress (Some true) (Some 80) None None)) None))
    (Some (mkTemplate (Some (mkScale (Some 10) (Some 0)))))
    "japaneast" (Some "env") (Some "app--old1").

(** ** The outcome of a run, in closed form *)

(** What [deactivateRevision] returns and leaves, told from the traffic
    list and the answers of the control plane. *)
Definition deactivation_outcome
    (client : ControlPlane) (rg app : string) (traffic : list TrafficWeight)
    (name : string) (s : State) : result unit * State :=
  if not_zero (target_weight traffic name)
  then (Throw (TrafficWeightNotZero name app), s)
  else
    match cp_deactivateRevision client (calls s) rg app name with
    | Throw e =>
        (Throw e,
         mkState (heap s) (calls s ++ [CallDeactivate rg app name]) (outputs s))
    | Ok _ =>
        let reread :=
          mkState (heap s)
            (calls s ++ [CallDeactivate rg app name; CallGetRevision rg app name])
            (outputs s) in
        match cp_getRevision client (calls s ++ [CallDeactivate rg app name])
                rg app name with
        | Throw e => (Throw e, reread)
        | Ok None => (Throw TypeError, reread)
        | Ok (Some revision) =>
            (if truthy_boolean (active revision)
             then Throw (CannotBeDeactivated name app)
             else Ok tt,
             reread)
        end
    end.

(** The outputs of a deployment whose re-read found the revision. *)
Definition endpoint_output (ext : option bool) (revision : Revision)
  : list (string * string) :=
  if truthy_boolean ext && truthy_string (fqdn revision)
  then [("app-url",
         "https://" +:+ (match fqdn revision with Some f => f | None => "" end)
           +:+ "/")]
  else [].

(** What a run outside deactivation mode returns and leaves, once [get]
    has answered with [snapshot]. *)
Definition deploy_outcome
    (client : ControlPlane) (taskParams : TaskParameters)
    (snapshot : ContainerApp TrafficWeight) : result unit * State :=
  let rg := resourceGroup taskParams in
  let app := containerAppName taskParams in
  let name := composed_name taskParams in
  let read := [CallGet rg app] in
  match configuration snapshot with
  | None => (Throw TypeError, mkState [] read [])
  | Some cfg =>
      match ingress cfg with
      | None => (Throw TypeError, mkState [] read [])
      | Some ing =>
          match traffic ing with
          | None => (Throw TypeError, mkState [] read [])
          | Some vs =>
              let h :=
                map (rewritten (latestRevisionName snapshot)) vs ++ [new_entry name] in
              match template snapshot with
              | None => (Throw TypeError, mkState h read [])
              | Some tmpl =>
                  match scale tmpl with
                  | None => (Throw TypeError, mkState h read [])
                  | Some sc =>
                      let body := submitted_envelope taskParams snapshot cfg ing vs sc in
                      let updated := read ++ [CallUpdate rg app body] in
                      let reread := updated ++ [CallGetRevision rg app name] in
                      match cp_beginUpdateAndWait client read rg app body with
                      | Throw e => (Throw e, mkState h updated [])
                      | Ok _ =>
                          match cp_getRevision client updated rg app name with
                          | Throw e => (Throw e, mkState h reread [])
                          | Ok None =>
                              (Throw (FailedToAddRevision name), mkState h reread [])
                          | Ok (Some revision) =>
                              (Ok tt,
                               mkState h reread
                                 (endpoint_output (external ing) revision))
                          end
                      end
                  end
              end
          end
      end
  end.

(** What a run returns and leaves. *)
Definition run_outcome (client : ControlPlane) (taskParams : TaskParameters)
  : result unit * State :=
  let rg := resourceGroup taskParams in
  let app := containerAppName taskParams in
  let name := composed_name taskParams in
  if (MAX_REVISION_NAME_LENGTH <? String.length name)%nat
  then (Throw (RevisionNameTooLong name (String.length name)), initial)
  else
    match cp_get client [] rg app with
    | Throw e => (Throw e, mkState [] [CallGet rg app] [])
    | Ok snapshot =>
        if deactivateRevisionMode taskParams
        then
          deactivation_outcome client rg app (response_traffic snapshot) name
            (mkState (response_traffic snapshot) [CallGet rg app] [])
        else deploy_outcome client taskParams snapshot
    end.

(** The parts of a snapshot that a run outside deactivation mode reads
    through (lines 46, 66-69, 77-78, 95): its configuration, the ingress in
    it, the traffic list of the ingress, and the scale of its template.  A
    part that is not there makes the run throw. *)
Definition snapshot_parts (snapshot : ContainerApp TrafficWeight)
  : option (Configuration TrafficWeight * Ingress TrafficWeight
            * list TrafficWeight * Scale) :=
  match configuration snapshot with
  | None => None
  | Some cfg =>
      match ingress cfg with
      | None => None
      | Some ing =>
          match traffic ing with
          | None => None
          | Some vs =>
              match template snapshot with
              | None => None
              | Some tmpl =>
                  match scale tmpl with
                  | None => None
                  | Some sc => Some (cfg, ing, vs, sc)
                  end
              end
          end
      end
  end.

(** A control plane with one answer per operation. *)
Definition fixed_client
    (got : result (ContainerApp TrafficWeight)) (updated : result unit)
    (found : result (option Revision)) (deactivated : result unit) : ControlPlane :=
  mkControlPlane (fun _ _ _ => got) (fun _ _ _ _ => updated)
    (fun _ _ _ _ => found) (fun _ _ _ _ => deactivated).

(** The task parameters of a deactivation of the same revision. *)
Definition sample_deactivation : TaskParameters :=
  mkTaskParameters "rg" "app" "abc1234" "ignored" "sub" true.

(** A snapshot without a template. *)
Definition snapshot_without_template : ContainerApp TrafficWeight :=
  mkContainerApp
    (Some (mkConfiguration
             (Some (mkIngress (Some true) (Some 80)
                      (Some [mkTrafficWeight None (Some 100) (Some true) None])
                      None))
             None))
    None "japaneast" (Some "env") (Some "app--old1").

(** The parts of [sample_snapshot], and the revision that the re-read of
    the scenario finds. *)
Definition sample_traffic : list TrafficWeight :=
  [mkTrafficWeight None (Some 100) (Some true) None].

Definition sample_ingress : Ingress TrafficWeight :=
  mkIngress (Some true) (Some 80) (Some sample_traffic) None.

Definition sample_configuration : Configuration TrafficWeight :=
  mkConfiguration (Some sample_ingress) None.

Definition sample_scale : Scale := mkScale (Some 10) (Some 0).

Definition sample_revision : Revision :=
  mkRevision (Some true) (Some "app-abc1234.example.com").

(** The body of the update of the scenario. *)
Definition sample_body : Envelope TrafficWeight :=
  submitted_envelope sample_taskParams sample_snapshot
    sample_configuration sample_ingress sample_traffic sample_scale.

(** A traffic list in which the weights of the revision cancel. *)
Definition cancelling_traffic : list TrafficWeight :=
  [ mkTrafficWeight (Some "app--abc1234") (Some 5) None None;
    mkTrafficWeight (Some "app--old1") (Some 100) None None;
    mkTrafficWeight (Some "app--abc1234") (Some (-5)) None None ].

(** ** Lemmas on entries *)

Lemma carried_over_spec t :
  carried_over t = true <-> exists w, weight t = Some w /\ w <> 0.
Proof.
  unfold carried_over, truthy_number, is_zero.
  destruct (weight t) as [w|]; simpl.
  - destruct (Z.eqb_spec w 0); simpl; split.
    + discriminate.
    + intros (w' & Hw & Hne). congruence.
    + eauto.
    + reflexivity.
  - split; [discriminate | intros (w & Hw & _); discriminate].
Qed.

Lemma weight_pinned latest t : weight (pinned latest t) = weight t.
Proof. unfold pinned. destruct (truthy_boolean (latestRevision t)); reflexivity. Qed.

Lemma weight_rewritten latest t : weight (rewritten latest t) = weight t.
Proof.
  unfold rewritten. destruct (carried_over t); [apply weight_pinned | reflexivity].
Qed.

Lemma carried_over_rewritten latest t :
  carried_over (rewritten latest t) = carried_over t.
Proof. unfold carried_over. rewrite weight_rewritten. reflexivity. Qed.

Lemma pinned_idempotent latest t : pinned latest (pinned latest t) = pinned latest t.
Proof.
  unfold pinned. destruct (truthy_boolean (latestRevision t)) eqn:E; simpl.
  - reflexivity.
  - rewrite E. reflexivity.
Qed.

Lemma rewritten_idempotent latest t :
  rewritten latest (rewritten latest t) = rewritten latest t.
Proof.
  unfold rewritten at 1. rewrite carried_over_rewritten.
  unfold rewritten. destruct (carried_over t); [apply pinned_idempotent | reflexivity].
Qed.

Lemma rewritten_carried_over latest t :
  carried_over t = true -> rewritten latest t = pinned latest t.
Proof. unfold rewritten. intros ->. reflexivity. Qed.

Lemma latestRevision_pinned latest t : latestRevision (pinned latest t) <> Some true.
Proof.
  unfold pinned. destruct (latestRevision t) as [[|]|] eqn:E; simpl; congruence.
Qed.

Lemma pinned_alias latest t :
  latestRevision t = Some true ->
  pinned latest t = mkTrafficWeight latest (weight t) (Some false) (label t).
Proof. unfold pinned. intros ->. reflexivity. Qed.

Lemma pinned_fixed latest t : latestRevision t <> Some true -> pinned latest t = t.
Proof.
  unfold pinned. destruct (latestRevision t) as [[|]|]; simpl; congruence.
Qed.

Lemma total_weight_app ts us :
  total_weight (ts ++ us) = total_weight ts + total_weight us.
Proof.
  induction ts as [|t ts IH]; simpl.
  - reflexivity.
  - fold (total_weight (ts ++ us)). fold (total_weight ts). lia.
Qed.

Lemma total_weight_pinned latest ts :
  total_weight (map (pinned latest) ts) = total_weight ts.
Proof.
  induction ts as [|t ts IH]; simpl.
  - reflexivity.
  - fold (total_weight (map (pinned latest) ts)). fold (total_weight ts).
    rewrite weight_pinned, IH. reflexivity.
Qed.

(** ** Lemmas on the store *)

Lemma state_eta s : mkState (heap s) (calls s) (outputs s) = s.
Proof. destruct s. reflexivity. Qed.

Lemma read_array_length h arr vs :
  read_array h arr = Some vs -> length vs = length arr.
Proof.
  revert vs. induction arr as [|l arr IH]; simpl; intros vs H.
  - injection H as <-. reflexivity.
  - destruct (h !! l); [|discriminate].
    destruct (read_array h arr) as [ws|]; [|discriminate].
    injection H as <-. simpl. f_equal. apply IH. reflexivity.
Qed.

Lemma read_array_bound h arr vs :
  read_array h arr = Some vs -> Forall (fun l => (l < length h)%nat) arr.
Proof.
  revert vs. induction arr as [|l arr IH]; simpl; intros vs H.
  - constructor.
  - destruct (h !! l) as [v|] eqn:E; [|discriminate].
    destruct (read_array h arr) as [ws|]; [|discriminate].
    constructor.
    + eapply lookup_lt_Some. exact E.
    + eapply IH. reflexivity.
Qed.

Lemma read_array_ext h h' arr :
  (forall l, l ∈ arr -> h' !! l = h !! l) -> read_array h' arr = read_array h arr.
Proof.
  induction arr as [|l arr IH]; simpl; intros H.
  - reflexivity.
  - rewrite H by apply list_elem_of_here.
    rewrite IH; [reflexivity|].
    intros x Hx. apply H. apply list_elem_of_further. exact Hx.
Qed.

Lemma read_array_app h arr1 arr2 vs1 vs2 :
  read_array h arr1 = Some vs1 -> read_array h arr2 = Some vs2 ->
  read_array h (arr1 ++ arr2) = Some (vs1 ++ vs2).
Proof.
  revert vs1. induction arr1 as [|l arr1 IH]; simpl; intros vs1 H1 H2.
  - injection H1 as <-. exact H2.
  - destruct (h !! l) as [v|]; [|discriminate].
    destruct (read_array h arr1) as [ws|]; [|discriminate].
    injection H1 as <-. rewrite (IH ws eq_refl H2). reflexivity.
Qed.

(** ** The callback and the filter on the store *)

Lemma filter_callback_spec latest l t s :
  heap s !! l = Some t ->
  filter_callback latest l s
  = (Ok (carried_over t),
     mkState (<[l := rewritten latest t]> (heap s)) (calls s) (outputs s)).
Proof.
  intros Hl.
  assert (Hlt : (l < length (heap s))%nat) by (eapply lookup_lt_Some; exact Hl).
  unfold filter_callback, bind, load. rewrite Hl.
  unfold rewritten, carried_over.
  destruct (negb (truthy_number (weight t)) || is_zero (weight t)); simpl.
  - unfold ret. rewrite list_insert_id by exact Hl. rewrite state_eta. reflexivity.
  - unfold pinned. destruct (truthy_boolean (latestRevision t)); simpl.
    + unfold set_latestRevision, set_revisionName, bind, load, store, ret; simpl.
      rewrite Hl; simpl.
      rewrite list_lookup_insert_eq by exact Hlt; simpl.
      rewrite list_insert_insert_eq. reflexivity.
    + unfold ret. rewrite list_insert_id by exact Hl. rewrite state_eta. reflexivity.
Qed.

Lemma kept_at_insert latest h l t x :
  h !! l = Some t ->
  kept_at (<[l := rewritten latest t]> h) x = kept_at h x.
Proof.
  intros Hl. unfold kept_at.
  destruct (decide (l = x)) as [->|Hne].
  - rewrite list_lookup_insert_eq by (eapply lookup_lt_Some; exact Hl).
    rewrite Hl. apply carried_over_rewritten.
  - rewrite list_lookup_insert_ne by exact Hne. reflexivity.
Qed.

Lemma filter_ext_bool {A} (f g : A -> bool) (xs : list A) :
  (forall x, f x = g x) -> List.filter f xs = List.filter g xs.
Proof.
  intros H. induction xs as [|x xs IH]; simpl.
  - reflexivity.
  - rewrite H, IH. reflexivity.
Qed.

(** [filter] returns the references of the kept objects and leaves every
    object of the array rewritten; nothing else of the state moves. *)
Lemma array_filter_spec latest arr : forall s,
  Forall (fun l => (l < length (heap s))%nat) arr ->
  exists h',
    array_filter (filter_callback latest) arr s
    = (Ok (List.filter (kept_at (heap s)) arr), mkState h' (calls s) (outputs s))
    /\ length h' = length (heap s)
    /\ forall l, h' !! l
        = if decide (l ∈ arr) then rewritten latest <$> heap s !! l else heap s !! l.
Proof.
  induction arr as [|l arr IH]; intros s Hb.
  - exists (heap s). simpl. unfold ret. rewrite state_eta.
    split; [reflexivity|]. split; [reflexivity|].
    intros l. destruct (decide (l ∈ [])) as [Hin|_]; [|reflexivity].
    inversion Hin.
  - inversion Hb as [|? ? Hl Hb']; subst.
    destruct (lookup_lt_is_Some_2 _ _ Hl) as [t Ht].
    set (s1 := mkState (<[l := rewritten latest t]> (heap s)) (calls s) (outputs s)).
    destruct (IH s1) as (h' & Hrun & Hlen & Hpt).
    { simpl. rewrite length_insert. exact Hb'. }
    exists h'. simpl in Hrun, Hlen, Hpt.
    split; [|split].
    + simpl. unfold bind at 1. rewrite (filter_callback_spec latest l t s Ht).
      fold s1. unfold bind at 1. rewrite Hrun. unfold ret.
      rewrite (filter_ext_bool _ (kept_at (heap s)) arr)
        by (intros x; apply kept_at_insert; exact Ht).
      replace (kept_at (heap s) l) with (carried_over t)
        by (unfold kept_at; rewrite Ht; reflexivity).
      reflexivity.
    + rewrite Hlen. apply length_insert.
    + intros x. rewrite Hpt.
      destruct (decide (x = l)) as [->|Hne].
      * rewrite list_lookup_insert_eq by exact Hl. rewrite Ht. simpl.
        rewrite rewritten_idempotent.
        destruct (decide (l ∈ l :: arr)) as [_|Hn];
          [|exfalso; apply Hn, list_elem_of_here].
        destruct (decide (l ∈ arr)); reflexivity.
      * rewrite list_lookup_insert_ne by congruence.
        destruct (decide (x ∈ arr)) as [Hin|Hnin].
        -- rewrite decide_True by (apply list_elem_of_further; exact Hin). reflexivity.
        -- rewrite decide_False; [reflexivity|].
           intros Hin. apply elem_of_cons in Hin as [?|?]; [congruence|contradiction].
Qed.

(** Read through the rewritten store, the kept references hold the kept
    values, pinned, in their order; and the array of the snapshot holds its
    values rewritten. *)
Lemma read_array_kept latest h h' arr : forall vs,
  read_array h arr = Some vs ->
  (forall l, l ∈ arr -> h' !! l = rewritten latest <$> h !! l) ->
  read_array h' (List.filter (kept_at h) arr)
  = Some (map (pinned latest) (List.filter carried_over vs)).
Proof.
  induction arr as [|l arr IH]; simpl; intros vs Hr Hpt.
  - injection Hr as <-. reflexivity.
  - destruct (h !! l) as [t|] eqn:Ht; [|discriminate].
    destruct (read_array h arr) as [ws|] eqn:Hws; [|discriminate].
    injection Hr as <-.
    assert (IH' := IH ws eq_refl
                     (fun x Hx => Hpt x (list_elem_of_further _ _ _ Hx))).
    unfold kept_at at 1. rewrite Ht. simpl.
    destruct (carried_over t) eqn:Hc; simpl.
    + rewrite (Hpt l (list_elem_of_here _ _)), Ht. simpl.
      rewrite IH'. rewrite (rewritten_carried_over _ _ Hc). reflexivity.
    + exact IH'.
Qed.

Lemma read_array_rewritten latest h h' arr : forall vs,
  read_array h arr = Some vs ->
  (forall l, l ∈ arr -> h' !! l = rewritten latest <$> h !! l) ->
  read_array h' arr = Some (map (rewritten latest) vs).
Proof.
  induction arr as [|l arr IH]; simpl; intros vs Hr Hpt.
  - injection Hr as <-. reflexivity.
  - destruct (h !! l) as [t|] eqn:Ht; [|discriminate].
    destruct (read_array h arr) as [ws|] eqn:Hws; [|discriminate].
    injection Hr as <-.
    rewrite (Hpt l (list_elem_of_here _ _)), Ht. simpl.
    rewrite (IH ws eq_refl (fun x Hx => Hpt x (list_elem_of_further _ _ _ Hx))).
    reflexivity.
Qed.

Lemma read_array_grow h v arr vs :
  read_array h arr = Some vs -> read_array (h ++ [v]) arr = Some vs.
Proof.
  intros H. rewrite <- H. apply read_array_ext.
  intros l Hl. apply lookup_app_l.
  pose proof (read_array_bound _ _ _ H) as Hb.
  rewrite Forall_forall in Hb. apply Hb. exact Hl.
Qed.

(** ** The reconciler as a whole *)

Lemma reconcileTraffic_spec latest name arr vs s :
  read_array (heap s) arr = Some vs ->
  exists h',
    reconcileTraffic latest name arr s
    = (Ok (List.filter (kept_at (heap s)) arr ++ [length (heap s)]),
       mkState (h' ++ [new_entry name]) (calls s) (outputs s))
    /\ length h' = length (heap s)
    /\ (forall l, h' !! l
          = if decide (l ∈ arr) then rewritten latest <$> heap s !! l else heap s !! l)
    /\ read_array (h' ++ [new_entry name])
         (List.filter (kept_at (heap s)) arr ++ [length (heap s)])
       = Some (map (pinned latest) (List.filter carried_over vs) ++ [new_entry name])
    /\ read_array (h' ++ [new_entry name]) arr = Some (map (rewritten latest) vs).
Proof.
  intros Hr.
  destruct (array_filter_spec latest arr s (read_array_bound _ _ _ Hr))
    as (h' & Hrun & Hlen & Hpt).
  assert (Hin : forall l, l ∈ arr -> h' !! l = rewritten latest <$> heap s !! l).
  { intros l Hl. rewrite Hpt. rewrite decide_True by exact Hl. reflexivity. }
  exists h'. split; [|split; [exact Hlen|split; [exact Hpt|split]]].
  - unfold reconcileTraffic, bind. rewrite Hrun. unfold alloc, ret. simpl.
    rewrite Hlen. reflexivity.
  - apply read_array_app.
    + apply read_array_grow. eapply read_array_kept; [exact Hr | exact Hin].
    + simpl. rewrite <- Hlen. rewrite list_lookup_middle by reflexivity. reflexivity.
  - apply read_array_grow. eapply read_array_rewritten; [exact Hr | exact Hin].
Qed.

Example reconcile_sample :
  let r := reconcileTraffic (Some "app--old1") "app--abc1234" sample_array sample_state in
  fst r = Ok [0%nat; 2%nat; 3%nat]
  /\ read_array (heap (snd r)) [0%nat; 2%nat; 3%nat]
     = Some [ mkTrafficWeight (Some "app--old0") (Some 50) (Some false) None;
              mkTrafficWeight (Some "app--old1") (Some 50) (Some false) None;
              mkTrafficWeight (Some "app--abc1234") (Some 0) (Some false) None ].
Proof. split; reflexivity. Qed.

(** ** Claims on the reconciler *)

(** C1.  For every traffic list of the snapshot, the reconciled list reads
    as the entries carried over -- those of nonzero weight, in their order,
    each with its weight -- followed by one entry for the new revision, of
    weight 0 and with the alias flag false; its total weight is the total
    weight of the carried-over entries of the input. *)
Theorem reconcile_weight_and_append
    (s : State) (arr : list loc) (vs : list TrafficWeight)
    (latest : option string) (name : string) :
  read_array (heap s) arr = Some vs ->
  exists (out : list loc) (s' : State) (carried : list TrafficWeight),
    reconcileTraffic latest name arr s = (Ok out, s')
    /\ read_array (heap s') out = Some (carried ++ [new_entry name])
    /\ carried = map (pinned latest) (List.filter carried_over vs)
    /\ map weight carried = map weight (List.filter carried_over vs)
    /\ total_weight (carried ++ [new_entry name])
       = total_weight (List.filter carried_over vs)
    /\ new_entry name = mkTrafficWeight (Some name) (Some 0) (Some false) None.
Proof.
  intros Hr.
  destruct (reconcileTraffic_spec latest name arr vs s Hr)
    as (h' & Hrun & _ & _ & Hout & _).
  eexists _, _, _. split; [exact Hrun|]. simpl.
  split; [exact Hout|]. split; [reflexivity|]. split; [|split].
  - rewrite map_map. apply map_ext. intros t. apply weight_pinned.
  - rewrite total_weight_app, total_weight_pinned. simpl. lia.
  - reflexivity.
Qed.

Lemma reconcile_weight_and_append_witness :
  read_array (heap sample_state) sample_array = Some sample_entries
  /\ exists out s' carried,
       reconcileTraffic (Some "app--old1") "app--abc1234" sample_array sample_state
       = (Ok out, s')
       /\ read_array (heap s') out = Some (carried ++ [new_entry "app--abc1234"])
       /\ carried = map (pinned (Some "app--old1")) (List.filter carried_over sample_entries)
       /\ map weight carried = map weight (List.filter carried_over sample_entries)
       /\ total_weight (carried ++ [new_entry "app--abc1234"])
          = total_weight (List.filter carried_over sample_entries)
       /\ new_entry "app--abc1234"
          = mkTrafficWeight (Some "app--abc1234") (Some 0) (Some false) None.
Proof.
  split.
  - reflexivity.
  - apply (reconcile_weight_and_append sample_state sample_array sample_entries).
    reflexivity.
Defined.

(** C2.  After reconciliation no entry of the output has the alias flag
    set, and every carried-over entry that had it set names the latest
    revision of the resource (with its weight kept).  This holds for every
    traffic list, in particular for one that contains an alias entry. *)
Theorem reconcile_pins_alias
    (s : State) (arr : list loc) (vs : list TrafficWeight)
    (latest : option string) (name : string) :
  read_array (heap s) arr = Some vs ->
  exists (out : list loc) (s' : State) (carried : list TrafficWeight),
    reconcileTraffic latest name arr s = (Ok out, s')
    /\ read_array (heap s') out = Some (carried ++ [new_entry name])
    /\ Forall (fun t => latestRevision t <> Some true) (carried ++ [new_entry name])
    /\ Forall2
         (fun v c =>
            if truthy_boolean (latestRevision v)
            then c = mkTrafficWeight latest (weight v) (Some false) (label v)
            else c = v)
         (List.filter carried_over vs) carried.
Proof.
  intros Hr.
  destruct (reconcileTraffic_spec latest name arr vs s Hr)
    as (h' & Hrun & _ & _ & Hout & _).
  eexists _, _, _. split; [exact Hrun|]. simpl.
  split; [exact Hout|]. split.
  - apply Forall_app. split.
    + apply Forall_forall. intros t Ht.
      apply list_elem_of_In, in_map_iff in Ht as (v & <- & _).
      apply latestRevision_pinned.
    + constructor; [simpl; congruence | constructor].
  - generalize (List.filter carried_over vs). clear. intros ws.
    induction ws as [|v ws IH]; simpl; constructor.
    + unfold pinned. destruct (truthy_boolean (latestRevision v)); reflexivity.
    + exact IH.
Qed.

Lemma reconcile_pins_alias_witness :
  read_array (heap sample_state) sample_array = Some sample_entries
  /\ exists out s' carried,
       reconcileTraffic (Some "app--old1") "app--abc1234" sample_array sample_state
       = (Ok out, s')
       /\ read_array (heap s') out = Some (carried ++ [new_entry "app--abc1234"])
       /\ Forall (fun t => latestRevision t <> Some true)
            (carried ++ [new_entry "app--abc1234"])
       /\ Forall2
            (fun v c =>
               if truthy_boolean (latestRevision v)
               then c = mkTrafficWeight (Some "app--old1") (weight v) (Some false) (label v)
               else c = v)
            (List.filter carried_over sample_entries) carried.
Proof.
  split.
  - reflexivity.
  - apply (reconcile_pins_alias sample_state sample_array sample_entries).
    reflexivity.
Defined.

(** C3, as the specification states it, fails: the reconciler compares no
    names.  On [alias_beside_fixed] the floating alias resolves to a
    revision that already holds a fixed entry, and the output names
    "app--old1" twice. *)
Lemma reconcile_repeats_a_name :
  let r :=
    reconcileTraffic (Some "app--old1") "app--abc1234" [0%nat; 1%nat] alias_beside_fixed in
  let ws :=
    [ mkTrafficWeight (Some "app--old1") (Some 50) (Some false) None;
      mkTrafficWeight (Some "app--old1") (Some 50) (Some false) None;
      mkTrafficWeight (Some "app--abc1234") (Some 0) (Some false) None ] in
  read_array (heap alias_beside_fixed) [0%nat; 1%nat]
  = Some [ mkTrafficWeight (Some "app--old1") (Some 50) (Some false) None;
           mkTrafficWeight None (Some 50) (Some true) None ]
  /\ fst r = Ok [0%nat; 1%nat; 2%nat]
  /\ read_array (heap (snd r)) [0%nat; 1%nat; 2%nat] = Some ws
  /\ ~ NoDup (map revisionName ws).
Proof.
  split; [reflexivity|]. split; [reflexivity|]. split; [reflexivity|].
  simpl. intros H. apply NoDup_cons in H as [Hnotin _].
  apply Hnotin. apply list_elem_of_here.
Qed.

(** C3, amended.  The names of the output are the names of the carried-over
    entries, aliases resolved, followed by the new name; so the output
    names no revision twice exactly when the carried-over entries, aliases
    resolved, name no revision twice and none of them names the new
    revision. *)
Theorem reconcile_names_distinct_iff
    (s : State) (arr : list loc) (vs : list TrafficWeight)
    (latest : option string) (name : string) :
  read_array (heap s) arr = Some vs ->
  exists (out : list loc) (s' : State) (ws : list TrafficWeight),
    reconcileTraffic latest name arr s = (Ok out, s')
    /\ read_array (heap s') out = Some ws
    /\ map revisionName ws
       = map revisionName (map (pinned latest) (List.filter carried_over vs))
         ++ [Some name]
    /\ (NoDup (map revisionName ws)
        <-> NoDup (map revisionName (map (pinned latest) (List.filter carried_over vs)))
            /\ Some name
               ∉ map revisionName (map (pinned latest) (List.filter carried_over vs))).
Proof.
  intros Hr.
  destruct (reconcileTraffic_spec latest name arr vs s Hr)
    as (h' & Hrun & _ & _ & Hout & _).
  eexists _, _, _. split; [exact Hrun|]. simpl.
  split; [exact Hout|].
  rewrite map_app. simpl. split; [reflexivity|].
  rewrite NoDup_app. split.
  - intros (Hnd & Hdisj & _). split; [exact Hnd|].
    intros Hin. apply (Hdisj _ Hin). apply list_elem_of_here.
  - intros (Hnd & Hnotin). split; [exact Hnd|]. split.
    + intros x Hx Hx'. apply list_elem_of_singleton in Hx'. subst x. contradiction.
    + apply NoDup_singleton.
Qed.

Lemma reconcile_names_distinct_iff_witness :
  read_array (heap sample_state) sample_array = Some sample_entries
  /\ exists out s' ws,
       reconcileTraffic (Some "app--old1") "app--abc1234" sample_array sample_state
       = (Ok out, s')
       /\ read_array (heap s') out = Some ws
       /\ map revisionName ws
          = map revisionName
              (map (pinned (Some "app--old1")) (List.filter carried_over sample_entries))
            ++ [Some "app--abc1234"]
       /\ (NoDup (map revisionName ws)
           <-> NoDup (map revisionName
                        (map (pinned (Some "app--old1"))
                           (List.filter carried_over sample_entries)))
               /\ Some "app--abc1234"
                  ∉ map revisionName
                      (map (pinned (Some "app--old1"))
                         (List.filter carried_over sample_entries))).
Proof.
  split.
  - reflexivity.
  - apply (reconcile_names_distinct_iff sample_state sample_array sample_entries).
    reflexivity.
Defined.

(** C9, as the specification states it, fails: the callback assigns to the
    objects of the snapshot.  On [floating_only] the snapshot's one entry is
    the floating alias; after reconciliation the snapshot reads a pinned
    entry. *)
Lemma reconcile_rewrites_the_snapshot :
  let r := reconcileTraffic (Some "app--old1") "app--abc1234" [0%nat] floating_only in
  read_array (heap floating_only) [0%nat]
  = Some [ mkTrafficWeight None (Some 100) (Some true) None ]
  /\ fst r = Ok [0%nat; 1%nat]
  /\ read_array (heap (snd r)) [0%nat]
     = Some [ mkTrafficWeight (Some "app--old1") (Some 100) (Some false) None ]
  /\ read_array (heap (snd r)) [0%nat] <> read_array (heap floating_only) [0%nat].
Proof.
  split; [reflexivity|]. split; [reflexivity|]. split; [reflexivity|].
  simpl. discriminate.
Qed.

(** C9, amended.  Reconciliation makes a new array, but the objects in it
    are those of the snapshot: the new array holds the references of the
    kept entries and one new reference.  After it the snapshot's array
    reads as before except that each entry of nonzero weight with the alias
    flag set is pinned (see [rewritten]); objects outside the array, the
    calls and the outputs are as before. *)
Theorem reconcile_frame
    (s : State) (arr : list loc) (vs : list TrafficWeight)
    (latest : option string) (name : string) :
  read_array (heap s) arr = Some vs ->
  exists (s' : State),
    reconcileTraffic latest name arr s
    = (Ok (List.filter (kept_at (heap s)) arr ++ [length (heap s)]), s')
    /\ read_array (heap s') arr = Some (map (rewritten latest) vs)
    /\ Forall2
         (fun v v' =>
            if carried_over v && truthy_boolean (latestRevision v)
            then v' = mkTrafficWeight latest (weight v) (Some false) (label v)
            else v' = v)
         vs (map (rewritten latest) vs)
    /\ (forall l, l ∉ arr -> (l < length (heap s))%nat -> heap s' !! l = heap s !! l)
    /\ length (heap s') = S (length (heap s))
    /\ calls s' = calls s
    /\ outputs s' = outputs s.
Proof.
  intros Hr.
  destruct (reconcileTraffic_spec latest name arr vs s Hr)
    as (h' & Hrun & Hlen & Hpt & _ & Hsnap).
  eexists. split; [exact Hrun|]. simpl.
  split; [exact Hsnap|]. split; [|split; [|split; [|split; reflexivity]]].
  - clear. induction vs as [|v vs IH]; simpl; constructor.
    + unfold rewritten, pinned.
      destruct (carried_over v), (truthy_boolean (latestRevision v)); reflexivity.
    + exact IH.
  - intros l Hnotin Hlt.
    rewrite lookup_app_l by (rewrite Hlen; exact Hlt).
    rewrite Hpt. rewrite decide_False by exact Hnotin. reflexivity.
  - rewrite length_app, Hlen. simpl. lia.
Qed.

Lemma reconcile_frame_witness :
  read_array (heap sample_state) sample_array = Some sample_entries
  /\ exists s',
       reconcileTraffic (Some "app--old1") "app--abc1234" sample_array sample_state
       = (Ok (List.filter (kept_at (heap sample_state)) sample_array
              ++ [length (heap sample_state)]), s')
       /\ read_array (heap s') sample_array
          = Some (map (rewritten (Some "app--old1")) sample_entries)
       /\ Forall2
            (fun v v' =>
               if carried_over v && truthy_boolean (latestRevision v)
               then v' = mkTrafficWeight (Some "app--old1") (weight v) (Some false) (label v)
               else v' = v)
            sample_entries (map (rewritten (Some "app--old1")) sample_entries)
       /\ (forall l, l ∉ sample_array -> (l < length (heap sample_state))%nat ->
                     heap s' !! l = heap sample_state !! l)
       /\ length (heap s') = S (length (heap sample_state))
       /\ calls s' = calls sample_state
       /\ outputs s' = outputs sample_state.
Proof.
  split.
  - reflexivity.
  - apply (reconcile_frame sample_state sample_array sample_entries).
    reflexivity.
Defined.

(** ** The deactivation check *)

Lemma fold_js_add_NaN ts :
  fold_left (fun prev curr => js_add prev (weight curr)) ts NaN = NaN.
Proof. induction ts as [|t ts IH]; simpl; [reflexivity | exact IH]. Qed.

Lemma fold_js_add_unset ts : forall acc,
  (exists t, t ∈ ts /\ weight t = None) ->
  fold_left (fun prev curr => js_add prev (weight curr)) ts acc = NaN.
Proof.
  induction ts as [|t ts IH]; intros acc (u & Hin & Hw).
  - inversion Hin.
  - simpl. apply elem_of_cons in Hin as [->|Hin].
    + rewrite Hw. destruct acc; simpl; apply fold_js_add_NaN.
    + apply IH. exists u. split; assumption.
Qed.



(** No matching entry: the sum is zero. *)
Lemma target_weight_no_match traffic name :
  List.filter (fun r => strictly_equal (revisionName r) name) traffic = [] ->
  target_weight traffic name = Num 0.
Proof. unfold target_weight. intros ->. reflexivity. Qed.

Lemma strictly_equal_spec a b : strictly_equal a b = true <-> a = Some b.
Proof.
  unfold strictly_equal. destruct a as [a|].
  - rewrite String.eqb_eq. split; congruence.
  - split; discriminate.
Qed.

Lemma not_zero_spec n : not_zero n = true <-> n <> Num 0.
Proof.
  destruct n as [z|]; simpl.
  - destruct (Z.eqb_spec z 0); simpl; split; congruence.
  - split; [discriminate | reflexivity].
Qed.

(** The guard of line 160 holds exactly when the sum is not zero. *)
Lemma guard_spec traffic name :
  let targetRevisions :=
    List.filter (fun r => strictly_equal (revisionName r) name) traffic in
  (0 <? length targetRevisions)%nat
  && not_zero (fold_left (fun prev curr => js_add prev (weight curr))
                 targetRevisions (Num 0))
  = not_zero (target_weight traffic name).
Proof.
  unfold target_weight. simpl.
  destruct (List.filter (fun r => strictly_equal (revisionName r) name) traffic);
    reflexivity.
Qed.

Section Deactivation.
Variable client : ControlPlane.

Lemma deactivateRevision_throws rg app traffic name s :
  target_weight traffic name <> Num 0 ->
  deactivateRevision client rg app traffic name s
  = (Throw (TrafficWeightNotZero name app), s).
Proof.
  intros Hne. apply not_zero_spec in Hne.
  unfold deactivateRevision, bind. rewrite guard_spec, Hne. reflexivity.
Qed.

Lemma deactivateRevision_proceeds rg app traffic name s :
  target_weight traffic name = Num 0 ->
  deactivateRevision client rg app traffic name s
  = (containerAppsRevisions_deactivateRevision client rg app name ;;
     deactiveRevision <- containerAppsRevisions_getRevision client rg app name ;;
     revision <- nonnull deactiveRevision ;;
     if truthy_boolean (active revision)
     then throw (CannotBeDeactivated name app)
     else ret tt) s.
Proof.
  intros Hz. unfold deactivateRevision. unfold bind at 1.
  rewrite guard_spec, Hz. reflexivity.
Qed.

(** C6.  When the weights of the entries that name the target do not sum
    to zero, [deactivateRevision] throws the traffic-weight error and the
    state is as it was: no call has been issued, to deactivate or
    otherwise. *)
Theorem deactivateRevision_refuses_live_traffic
    (rg app : string) (traffic : list TrafficWeight) (name : string) (s : State) :
  target_weight traffic name <> Num 0 ->
  deactivateRevision client rg app traffic name s
  = (Throw (TrafficWeightNotZero name app), s)
  /\ calls (snd (deactivateRevision client rg app traffic name s)) = calls s.
Proof.
  intros Hne. rewrite (deactivateRevision_throws rg app traffic name s Hne).
  split; reflexivity.
Qed.

(** C10.  A matching entry whose weight is unset makes the sum NaN, which
    is not zero: [deactivateRevision] throws the traffic-weight error and
    issues no call, whatever the other entries are. *)
Theorem deactivateRevision_refuses_unset_weight
    (rg app : string) (traffic : list TrafficWeight) (name : string) (s : State) :
  (exists t, t ∈ traffic /\ revisionName t = Some name /\ weight t = None) ->
  target_weight traffic name = NaN
  /\ deactivateRevision client rg app traffic name s
     = (Throw (TrafficWeightNotZero name app), s).
Proof.
  intros (t & Hin & Hn & Hw).
  assert (HNaN : target_weight traffic name = NaN).
  { unfold target_weight. apply fold_js_add_unset. exists t. split; [|exact Hw].
    apply list_elem_of_In, filter_In. split.
    - apply list_elem_of_In. exact Hin.
    - apply strictly_equal_spec. exact Hn. }
  split; [exact HNaN|].
  apply deactivateRevision_throws. rewrite HNaN. discriminate.
Qed.

(** C7.  When the sum is zero -- as it is when no entry names the target --
    the deactivate request is issued.  If the control plane accepts it and
    answers the re-read with a revision, the run throws the
    cannot-be-deactivated error exactly when that revision is still
    active, and otherwise returns normally; two calls have been issued,
    the request and the re-read. *)
Theorem deactivateRevision_confirms
    (rg app : string) (traffic : list TrafficWeight) (name : string) (s : State) :
  target_weight traffic name = Num 0 ->
  (exists rest,
     calls (snd (deactivateRevision client rg app traffic name s))
     = calls s ++ CallDeactivate rg app name :: rest)
  /\ forall revision,
       cp_deactivateRevision client (calls s) rg app name = Ok tt ->
       cp_getRevision client (calls s ++ [CallDeactivate rg app name]) rg app name
       = Ok (Some revision) ->
       deactivateRevision client rg app traffic name s
       = (if truthy_boolean (active revision)
          then Throw (CannotBeDeactivated name app)
          else Ok tt,
          mkState (heap s)
            (calls s ++ [CallDeactivate rg app name; CallGetRevision rg app name])
            (outputs s)).
Proof.
  intros Hz. rewrite (deactivateRevision_proceeds rg app traffic name s Hz).
  unfold containerAppsRevisions_deactivateRevision,
    containerAppsRevisions_getRevision, bind, history, record_call, lift, nonnull;
    simpl.
  split.
  - destruct (cp_deactivateRevision client (calls s) rg app name) as [[]|e].
    + destruct (cp_getRevision client (calls s ++ [CallDeactivate rg app name])
                  rg app name) as [[revision|]|e]; simpl.
      * destruct (truthy_boolean (active revision)); simpl;
          rewrite <- app_assoc; eexists; reflexivity.
      * rewrite <- app_assoc; eexists; reflexivity.
      * rewrite <- app_assoc; eexists; reflexivity.
    + simpl. eexists; reflexivity.
  - intros revision -> ->. simpl. rewrite <- app_assoc. simpl.
    destruct (truthy_boolean (active revision)); reflexivity.
Qed.
End Deactivation.

Lemma deactivateRevision_refuses_live_traffic_witness :
  target_weight [mkTrafficWeight (Some "app--abc123") (Some 30) None None] "app--abc123"
  <> Num 0
  /\ deactivateRevision (sample_client sample_snapshot) "rg" "app"
       [mkTrafficWeight (Some "app--abc123") (Some 30) None None] "app--abc123" initial
     = (Throw (TrafficWeightNotZero "app--abc123" "app"), initial)
  /\ calls (snd (deactivateRevision (sample_client sample_snapshot) "rg" "app"
                   [mkTrafficWeight (Some "app--abc123") (Some 30) None None]
                   "app--abc123" initial))
     = calls initial.
Proof.
  split.
  - vm_compute. discriminate.
  - apply (deactivateRevision_refuses_live_traffic (sample_client sample_snapshot)).
    vm_compute. discriminate.
Defined.

Lemma deactivateRevision_refuses_unset_weight_witness :
  (exists t,
     t ∈ [mkTrafficWeight (Some "app--abc123") None None None]
     /\ revisionName t = Some "app--abc123" /\ weight t = None)
  /\ target_weight [mkTrafficWeight (Some "app--abc123") None None None] "app--abc123"
     = NaN
  /\ deactivateRevision (sample_client sample_snapshot) "rg" "app"
       [mkTrafficWeight (Some "app--abc123") None None None] "app--abc123" initial
     = (Throw (TrafficWeightNotZero "app--abc123" "app"), initial).
Proof.
  assert (H : exists t,
             t ∈ [mkTrafficWeight (Some "app--abc123") None None None]
             /\ revisionName t = Some "app--abc123" /\ weight t = None).
  { eexists. split; [apply list_elem_of_here|]. split; reflexivity. }
  split.
  - exact H.
  - apply (deactivateRevision_refuses_unset_weight (sample_client sample_snapshot)).
    exact H.
Defined.

Lemma deactivateRevision_confirms_witness :
  target_weight [mkTrafficWeight (Some "app--abc123") (Some 0) None None] "app--abc123"
  = Num 0
  /\ cp_deactivateRevision (sample_client sample_snapshot) [] "rg" "app" "app--abc123"
     = Ok tt
  /\ cp_getRevision (sample_client sample_snapshot)
       [CallDeactivate "rg" "app" "app--abc123"] "rg" "app" "app--abc123"
     = Ok (Some (mkRevision (Some false) (Some "app-abc1234.example.com")))
  /\ deactivateRevision (sample_client sample_snapshot) "rg" "app"
       [mkTrafficWeight (Some "app--abc123") (Some 0) None None] "app--abc123" initial
     = (Ok tt,
        mkState []
          [CallDeactivate "rg" "app" "app--abc123";
           CallGetRevision "rg" "app" "app--abc123"]
          []).
Proof.
  split; [reflexivity|]. split; [reflexivity|]. split; [reflexivity|].
  destruct (deactivateRevision_confirms (sample_client sample_snapshot) "rg" "app"
              [mkTrafficWeight (Some "app--abc123") (Some 0) None None]
              "app--abc123" initial eq_refl) as [_ H].
  apply (H (mkRevision (Some false) (Some "app-abc1234.example.com")));
    reflexivity.
Defined.

(** The same request against a control plane that keeps the revision
    active: the run fails. *)
Example deactivateRevision_not_confirmed :
  let stubborn :=
    mkControlPlane (fun _ _ _ => Ok sample_snapshot) (fun _ _ _ _ => Ok tt)
      (fun _ _ _ _ => Ok (Some (mkRevision (Some true) None)))
      (fun _ _ _ _ => Ok tt) in
  fst (deactivateRevision stubborn "rg" "app"
         [mkTrafficWeight (Some "app--abc123") (Some 0) None None] "app--abc123" initial)
  = Throw (CannotBeDeactivated "app--abc123" "app").
Proof. reflexivity. Qed.

(** ** The run *)

Lemma bind_ok {A B} (m : M A) (k : A -> M B) s a s' :
  m s = (Ok a, s') -> bind m k s = k a s'.
Proof. unfold bind. intros ->. reflexivity. Qed.

Lemma bind_throw {A B} (m : M A) (k : A -> M B) s e s' :
  m s = (Throw e, s') -> bind m k s = (Throw e, s').
Proof. unfold bind. intros ->. reflexivity. Qed.

Lemma alloc_array_spec vs : forall s,
  alloc_array vs s
  = (Ok (seq (length (heap s)) (length vs)),
     mkState (heap s ++ vs) (calls s) (outputs s)).
Proof.
  induction vs as [|v vs IH]; intros s; simpl.
  - unfold ret. rewrite app_nil_r, state_eta. reflexivity.
  - unfold bind, alloc. rewrite IH. unfold ret. simpl.
    rewrite length_app, <- app_assoc. simpl.
    replace (length (heap s) + 1)%nat with (S (length (heap s))) by lia.
    reflexivity.
Qed.

Lemma read_array_seq vs : forall h,
  read_array (h ++ vs) (seq (length h) (length vs)) = Some vs.
Proof.
  induction vs as [|v vs IH]; intros h; simpl.
  - reflexivity.
  - rewrite list_lookup_middle by reflexivity.
    specialize (IH (h ++ [v])).
    rewrite <- app_assoc, length_app in IH. simpl in IH.
    replace (length h + 1)%nat with (S (length h)) in IH by lia.
    rewrite IH. reflexivity.
Qed.

Lemma grows_ret {A} (a : A) : grows (ret a).
Proof. intros s. exists []. simpl. rewrite app_nil_r. reflexivity. Qed.

Lemma grows_throw {A} e : grows (@throw A e).
Proof. intros s. exists []. simpl. rewrite app_nil_r. reflexivity. Qed.

Lemma grows_lift {A} (r : result A) : grows (lift r).
Proof. intros s. exists []. simpl. rewrite app_nil_r. reflexivity. Qed.

Lemma grows_bind {A B} (m : M A) (k : A -> M B) :
  grows m -> (forall a, grows (k a)) -> grows (bind m k).
Proof.
  intros Hm Hk s. unfold bind. destruct (Hm s) as (r1 & H1).
  destruct (m s) as [[a|e] s1]; simpl in H1.
  - destruct (Hk a s1) as (r2 & H2). exists (r1 ++ r2).
    rewrite H2, H1, app_assoc. reflexivity.
  - exists r1. exact H1.
Qed.

Lemma grows_getRevision client rg app name :
  grows (containerAppsRevisions_getRevision client rg app name).
Proof.
  intros s. unfold containerAppsRevisions_getRevision, bind, history, record_call, lift.
  simpl. eexists. reflexivity.
Qed.

Lemma grows_setOutput n v : grows (setOutput n v).
Proof. intros s. exists []. simpl. rewrite app_nil_r. reflexivity. Qed.

Lemma nonnull_some {A} (a : A) s : nonnull (Some a) s = (Ok a, s).
Proof. reflexivity. Qed.

Lemma beginUpdateAndWait_calls {B} client rg app envelope body (k : unit -> M B) s :
  serialize_envelope envelope s = (Ok body, s) ->
  (forall u, grows (k u)) ->
  exists rest,
    calls (snd (bind (containerApps_beginUpdateAndWait client rg app envelope) k s))
    = calls s ++ CallUpdate rg app body :: rest.
Proof.
  intros Hser Hk.
  unfold containerApps_beginUpdateAndWait.
  unfold bind at 1. unfold bind at 1. rewrite Hser.
  unfold bind, history, record_call, lift. simpl.
  destruct (cp_beginUpdateAndWait client (calls s) rg app body) as [u|e]; simpl.
  - destruct (Hk u (mkState (heap s) (calls s ++ [CallUpdate rg app body]) (outputs s)))
      as (rest & Hrest).
    exists rest. rewrite Hrest. simpl. rewrite <- app_assoc. reflexivity.
  - exists []. reflexivity.
Qed.

Section Run.
Variable client : ControlPlane.
Variable taskParams : TaskParameters.

Local Abbreviation rg := (resourceGroup taskParams).
Local Abbreviation app := (containerAppName taskParams).
Local Abbreviation name := (composed_name taskParams).

Lemma length_check_passes s :
  (String.length name <= 63)%nat ->
  (if (MAX_REVISION_NAME_LENGTH <? String.length name)%nat
   then throw (RevisionNameTooLong name (String.length name))
   else ret tt) s = (Ok tt, s).
Proof.
  intros Hle. unfold MAX_REVISION_NAME_LENGTH.
  destruct (Nat.ltb_spec 63 (String.length name)); [lia | reflexivity].
Qed.

Lemma containerApps_get_ok snapshot s :
  cp_get client (calls s) rg app = Ok snapshot ->
  containerApps_get client rg app s
  = materialize snapshot (mkState (heap s) (calls s ++ [CallGet rg app]) (outputs s)).
Proof.
  intros H. unfold containerApps_get, bind, history, record_call, lift.
  rewrite H. reflexivity.
Qed.

(** C5.  When the composed name is longer than 63 characters the run
    fails with the name-too-long error in the state it started in: no call
    has been issued on the control plane. *)
Theorem main_rejects_long_name :
  (63 < String.length (composed_name taskParams))%nat ->
  main client taskParams
  = (Throw (RevisionNameTooLong (composed_name taskParams)
              (String.length (composed_name taskParams))),
     initial)
  /\ calls (snd (main client taskParams)) = [].
Proof.
  intros Hlong.
  assert (Hrun : main client taskParams
                 = (Throw (RevisionNameTooLong (composed_name taskParams)
                             (String.length (composed_name taskParams))),
                    initial)).
  { unfold main, main_try, bind, MAX_REVISION_NAME_LENGTH. cbv zeta.
    destruct (Nat.ltb_spec 63 (String.length (composed_name taskParams)));
      [reflexivity | lia]. }
  rewrite Hrun. split; reflexivity.
Qed.

(** What [get] leaves in memory. *)
Lemma materialize_spec snapshot s :
  exists app',
    materialize snapshot s
    = (Ok app',
       mkState (heap s ++ response_traffic snapshot) (calls s) (outputs s))
    /\ template app' = template snapshot
    /\ location app' = location snapshot
    /\ managedEnvironmentId app' = managedEnvironmentId snapshot
    /\ latestRevisionName app' = latestRevisionName snapshot
    /\ configuration app'
       = match configuration snapshot with
         | None => None
         | Some cfg =>
             Some (mkConfiguration
                     match ingress cfg with
                     | None => None
                     | Some ing =>
                         Some (mkIngress (external ing) (targetPort ing)
                                 match traffic ing with
                                 | None => None
                                 | Some vs => Some (seq (length (heap s)) (length vs))
                                 end
                                 (customDomains ing))
                     end
                     (dapr cfg))
         end.
Proof.
  unfold materialize, response_traffic.
  destruct (configuration snapshot) as [cfg|].
  - unfold materialize_configuration.
    destruct (ingress cfg) as [ing|].
    + unfold materialize_ingress.
      destruct (traffic ing) as [vs|].
      * eexists. unfold bind. rewrite alloc_array_spec. unfold ret.
        split; [reflexivity|]. repeat split.
      * eexists. unfold bind, ret. rewrite app_nil_r, state_eta.
        split; [reflexivity|]. repeat split.
    + eexists. unfold bind, ret. rewrite app_nil_r, state_eta.
      split; [reflexivity|]. repeat split.
  - eexists. unfold ret. rewrite app_nil_r, state_eta.
    split; [reflexivity|]. repeat split.
Qed.

(** In deactivation mode a run is the read of the resource, then
    [deactivateRevision] on the traffic list read. *)
Lemma main_deactivation snapshot :
  deactivateRevisionMode taskParams = true ->
  (String.length name <= 63)%nat ->
  cp_get client [] rg app = Ok snapshot ->
  main client taskParams
  = deactivateRevision client rg app (response_traffic snapshot) name
      (mkState (response_traffic snapshot) [CallGet rg app] []).
Proof.
  intros Hmode Hle Hget.
  unfold main, main_try. cbv zeta.
  rewrite (bind_ok _ _ _ _ _ (length_check_passes initial Hle)).
  destruct (materialize_spec snapshot (mkState [] [CallGet rg app] []))
    as (app' & Hm & _).
  simpl in Hm.
  rewrite (bind_ok _ (fun currentAppProperty => _) initial app'
             (mkState (response_traffic snapshot) [CallGet rg app] [])).
  2: { rewrite (containerApps_get_ok snapshot initial Hget). exact Hm. }
  rewrite Hmode.
  erewrite bind_ok; [reflexivity|].
  destruct (materialize_spec snapshot (mkState [] [CallGet rg app] []))
    as (a1 & Hm1 & _ & _ & _ & _ & Hc1).
  simpl in Hm1, Hc1. rewrite Hm in Hm1. injection Hm1 as <-.
  unfold traffic_or_empty, response_traffic. rewrite Hc1.
  destruct (configuration snapshot) as [cfg|]; [|reflexivity]. simpl.
  destruct (ingress cfg) as [ing|]; [|reflexivity]. simpl.
  destruct (traffic ing) as [vs|]; [|reflexivity]. simpl.
  unfold serialize_array. simpl.
  pose proof (read_array_seq vs []) as Hrs. simpl in Hrs. rewrite Hrs.
  reflexivity.
Qed.

Lemma main_submits snapshot cfg ing vs tmpl sc :
  deactivateRevisionMode taskParams = false ->
  (String.length name <= 63)%nat ->
  cp_get client [] rg app = Ok snapshot ->
  configuration snapshot = Some cfg ->
  ingress cfg = Some ing ->
  traffic ing = Some vs ->
  template snapshot = Some tmpl ->
  scale tmpl = Some sc ->
  exists rest,
    calls (snd (main client taskParams))
    = CallGet rg app
      :: CallUpdate rg app (submitted_envelope taskParams snapshot cfg ing vs sc)
      :: rest.
Proof.
  intros Hmode Hle Hget Hcfg Hing Htr Htmpl Hsc.
  unfold main, main_try. cbv zeta.
  rewrite (bind_ok _ _ _ _ _ (length_check_passes initial Hle)).
  destruct (materialize_spec snapshot (mkState [] [CallGet rg app] []))
    as (app' & Hm & Ht' & Hl' & Hme' & Hlr' & Hc').
  unfold response_traffic in Hm. rewrite Hcfg, Hing, Htr in Hm, Hc'.
  cbn [heap calls outputs app_nil_l length] in Hm, Hc'. simpl app in Hm.
  rewrite (bind_ok _ (fun currentAppProperty => _) initial app'
             (mkState vs [CallGet rg app] [])).
  2: { rewrite (containerApps_get_ok snapshot initial Hget). exact Hm. }
  rewrite Hmode, Hc'.
  rewrite (bind_ok _ _ _ _ _ (nonnull_some _ _)). cbn [ingress].
  rewrite (bind_ok _ _ _ _ _ (nonnull_some _ _)). cbn [traffic].
  rewrite (bind_ok _ _ _ _ _ (nonnull_some _ _)).
  pose proof (read_array_seq vs []) as Hread. simpl in Hread.
  destruct (reconcileTraffic_spec (latestRevisionName app') name
              (seq 0 (length vs)) vs (mkState vs [CallGet rg app] []) Hread)
    as (h' & Hrun & _ & _ & Hout & _).
  cbn [heap calls outputs] in Hrun, Hout.
  rewrite (bind_ok _ _ _ _ _ Hrun).
  rewrite Ht', Htmpl.
  rewrite (bind_ok _ _ _ _ _ (nonnull_some _ _)).
  rewrite Hsc.
  rewrite (bind_ok _ _ _ _ _ (nonnull_some _ _)).
  change (CallGet rg app :: CallUpdate rg app
            (submitted_envelope taskParams snapshot cfg ing vs sc) :: ?r)
    with (calls (mkState (h' ++ [new_entry name]) [CallGet rg app] [])
          ++ CallUpdate rg app (submitted_envelope taskParams snapshot cfg ing vs sc) :: r).
  apply beginUpdateAndWait_calls.
  - unfold serialize_envelope, containerAppEnvelope_of, networkConfig_of,
      ingressConfig_of, submitted_envelope.
    rewrite Hl', Hme', <- Hlr'.
    cbn [env_configuration ic_external external targetPort customDomains dapr
         env_location env_managedEnvironmentId env_template].
    destruct (external ing) as [[|]|];
      cbn [loosely_false loosely_undefined orb delete_ingress nc_ingress nc_dapr
           nc_activeRevisionsMode truthy_boolean]; [|reflexivity|reflexivity].
    unfold serialize_ingressConfig, serialize_array, bind, ret.
    cbn [ic_traffic heap ic_external ic_targetPort ic_customDomains].
    rewrite Hout. reflexivity.
  - intros _. apply grows_bind; [apply grows_getRevision|].
    intros [revision|]; [|apply grows_throw].
    match goal with |- grows (if ?b then _ else _) => destruct b end;
      [apply grows_setOutput | apply grows_ret].
Qed.

(** In deactivation mode, traffic still routed to the target stops the run
    after the read: the only call issued is that read. *)
Lemma main_refuses_live_traffic snapshot :
  deactivateRevisionMode taskParams = true ->
  (String.length name <= 63)%nat ->
  cp_get client [] rg app = Ok snapshot ->
  target_weight (response_traffic snapshot) name <> Num 0 ->
  main client taskParams
  = (Throw (TrafficWeightNotZero name app),
     mkState (response_traffic snapshot) [CallGet rg app] []).
Proof.
  intros Hmode Hle Hget Hne.
  rewrite (main_deactivation snapshot Hmode Hle Hget).
  apply deactivateRevision_throws. exact Hne.
Qed.

(** Outside deactivation mode, a snapshot whose ingress has no traffic list
    stops the run with a [TypeError] after the read: nothing is submitted. *)
Lemma main_absent_traffic snapshot cfg ing :
  deactivateRevisionMode taskParams = false ->
  (String.length name <= 63)%nat ->
  cp_get client [] rg app = Ok snapshot ->
  configuration snapshot = Some cfg ->
  ingress cfg = Some ing ->
  traffic ing = None ->
  main client taskParams = (Throw TypeError, mkState [] [CallGet rg app] []).
Proof.
  intros Hmode Hle Hget Hcfg Hing Htr.
  unfold main, main_try. cbv zeta.
  rewrite (bind_ok _ _ _ _ _ (length_check_passes initial Hle)).
  destruct (materialize_spec snapshot (mkState [] [CallGet rg app] []))
    as (app' & Hm & _ & _ & _ & _ & Hc').
  unfold response_traffic in Hm. rewrite Hcfg, Hing, Htr in Hm, Hc'.
  simpl in Hm, Hc'.
  rewrite (bind_ok _ (fun currentAppProperty => _) initial app'
             (mkState [] [CallGet rg app] [])).
  2: { rewrite (containerApps_get_ok snapshot initial Hget). exact Hm. }
  rewrite Hmode, Hc'.
  rewrite (bind_ok _ _ _ _ _ (nonnull_some _ _)). cbn [ingress].
  rewrite (bind_ok _ _ _ _ _ (nonnull_some _ _)). cbn [traffic].
  reflexivity.
Qed.
End Run.

Lemma main_rejects_long_name_witness :
  let taskParams :=
    mkTaskParameters "rg"
      "a-container-app-with-a-name-that-is-far-too-long-for-a-revision"
      "abc1234" "registry/image:tag" "sub" false in
  (63 < String.length (composed_name taskParams))%nat
  /\ main (sample_client sample_snapshot) taskParams
     = (Throw (RevisionNameTooLong (composed_name taskParams)
                 (String.length (composed_name taskParams))),
        initial)
  /\ calls (snd (main (sample_client sample_snapshot) taskParams)) = [].
Proof.
  intros taskParams. split.
  - apply Nat.ltb_lt. reflexivity.
  - apply (main_rejects_long_name (sample_client sample_snapshot) taskParams).
    apply Nat.ltb_lt. reflexivity.
Defined.

(** The end-to-end scenario: the floating alias is pinned to "app--old1",
    the new revision is appended at weight 0, the scale rule asks for 50
    concurrent requests, and the endpoint of the revision is the output. *)
Example main_end_to_end :
  main (sample_client sample_snapshot) sample_taskParams
  = (Ok tt,
     mkState
       [ mkTrafficWeight (Some "app--old1") (Some 100) (Some false) None;
         mkTrafficWeight (Some "app--abc1234") (Some 0) (Some false) None ]
       [ CallGet "rg" "app";
         CallUpdate "rg" "app"
           (mkEnvelope
              (mkNetworkConfig None
                 (Some (mkIngressConfig (Some true) (Some 80)
                          [ mkTrafficWeight (Some "app--old1") (Some 100) (Some false) None;
                            mkTrafficWeight (Some "app--abc1234") (Some 0) (Some false) None ]
                          []))
                 "Multiple")
              "japaneast" (Some "env")
              (mkEnvelopeTemplate
                 [mkContainerConfig "app" "registry/image:tag"]
                 (mkScaleConfig (Some 10) (Some 0)
                    [mkScaleRule "httpscalingrule" "http" [("concurrentRequests", "50")]])
                 "abc1234"));
         CallGetRevision "rg" "app" "app--abc1234" ]
       [("app-url", "https://app-abc1234.example.com/")]).
Proof. reflexivity. Qed.

(** ** Claims on the envelope *)

(** C8.  The envelope has an [ingress] property exactly when the ingress of
    the snapshot is external; when it is not (false, or not set) the
    property is absent, not present with an empty value. *)
Theorem envelope_ingress_iff_external
    (taskParams : TaskParameters) (app : ContainerApp loc) (cfg : Configuration loc)
    (ing : Ingress loc) (traffics : list loc) (sc : Scale) :
  let envelope :=
    containerAppEnvelope_of taskParams app
      (networkConfig_of cfg (ingressConfig_of ing traffics)) (scaleConfig_of sc) in
  nc_ingress (env_configuration envelope)
  = (if truthy_boolean (external ing)
     then Some (ingressConfig_of ing traffics)
     else None)
  /\ (is_Some (nc_ingress (env_configuration envelope)) <-> external ing = Some true)
  /\ (nc_ingress (env_configuration envelope) = None <-> external ing <> Some true).
Proof.
  unfold containerAppEnvelope_of, networkConfig_of, ingressConfig_of. simpl.
  destruct (external ing) as [[|]|]; simpl.
  - split; [reflexivity|]. split; split; try congruence; eauto.
  - split; [reflexivity|]. split; split; try congruence.
    intros [x Hx]. discriminate.
  - split; [reflexivity|]. split; split; try congruence.
    intros [x Hx]. discriminate.
Qed.

(** The same for the body that a run submits. *)
Lemma submitted_envelope_ingress taskParams snapshot cfg ing vs sc :
  is_Some (nc_ingress (env_configuration
                         (submitted_envelope taskParams snapshot cfg ing vs sc)))
  <-> external ing = Some true.
Proof.
  unfold submitted_envelope. simpl.
  destruct (external ing) as [[|]|]; simpl; split; try congruence; eauto;
    intros [x Hx]; discriminate.
Qed.

(** ** The absent traffic list *)

(** An empty list reconciles to the one entry of the new revision. *)
Lemma reconcile_empty latest name s :
  reconcileTraffic latest name [] s
  = (Ok [length (heap s)],
     mkState (heap s ++ [new_entry name]) (calls s) (outputs s)).
Proof. reflexivity. Qed.

(** C4 on [snapshot_without_traffic], whose ingress has no traffic list:
    the run does not treat the list as empty; the call of [filter] on
    [undefined] throws, and no update is submitted.  Line 40, for the
    deactivation mode, reads the same snapshot as an empty list. *)
Theorem main_absent_traffic_throws :
  main (sample_client snapshot_without_traffic) sample_taskParams
  = (Throw TypeError, mkState [] [CallGet "rg" "app"] [])
  /\ response_traffic snapshot_without_traffic = [].
Proof. split; reflexivity. Qed.


(** ** Runs in closed form *)

Lemma deactivateRevision_outcome client rg app traffic name s :
  deactivateRevision client rg app traffic name s
  = deactivation_outcome client rg app traffic name s.
Proof.
  unfold deactivation_outcome.
  destruct (not_zero (target_weight traffic name)) eqn:Hnz.
  - apply deactivateRevision_throws. apply not_zero_spec. exact Hnz.
  - assert (Hz : target_weight traffic name = Num 0).
    { destruct (target_weight traffic name) as [z|]; [|discriminate].
      simpl in Hnz. destruct (Z.eqb_spec z 0); [congruence|discriminate]. }
    rewrite (deactivateRevision_proceeds client rg app traffic name s Hz).
    unfold containerAppsRevisions_deactivateRevision,
      containerAppsRevisions_getRevision, bind, history, record_call, lift, nonnull;
      simpl.
    destruct (cp_deactivateRevision client (calls s) rg app name) as [[]|e];
      [|reflexivity].
    destruct (cp_getRevision client (calls s ++ [CallDeactivate rg app name])
                rg app name) as [[revision|]|e]; simpl;
      rewrite <- app_assoc; simpl; [|reflexivity|reflexivity].
    destruct (truthy_boolean (active revision)); reflexivity.
Qed.

(** The reconciler on a snapshot just read: the store is the list of its
    entries, and afterwards the list of its entries rewritten, with the
    new entry behind. *)
Lemma reconcile_fresh_snapshot latest name vs cs os :
  reconcileTraffic latest name (seq 0 (length vs)) (mkState vs cs os)
  = (Ok (List.filter (kept_at vs) (seq 0 (length vs)) ++ [length vs]),
     mkState (map (rewritten latest) vs ++ [new_entry name]) cs os)
  /\ read_array (map (rewritten latest) vs ++ [new_entry name])
       (List.filter (kept_at vs) (seq 0 (length vs)) ++ [length vs])
     = Some (map (pinned latest) (List.filter carried_over vs) ++ [new_entry name]).
Proof.
  pose proof (read_array_seq vs []) as Hread. simpl in Hread.
  destruct (reconcileTraffic_spec latest name (seq 0 (length vs)) vs
              (mkState vs cs os) Hread) as (h' & Hrun & Hlen & Hpt & Hout & _).
  cbn [heap calls outputs] in Hrun, Hlen, Hpt, Hout.
  assert (Hh : h' = map (rewritten latest) vs).
  { apply list_eq. intros l. rewrite Hpt, list_lookup_fmap.
    destruct (decide (l ∈ seq 0 (length vs))) as [Hin|Hnin]; [reflexivity|].
    destruct (vs !! l) as [v|] eqn:Hv; [|reflexivity].
    exfalso. apply Hnin. apply elem_of_seq.
    apply lookup_lt_Some in Hv. lia. }
  subst h'. split; [exact Hrun | exact Hout].
Qed.

Section Outcome.
Variable client : ControlPlane.
Variable taskParams : TaskParameters.

Local Abbreviation rg := (resourceGroup taskParams).
Local Abbreviation app := (containerAppName taskParams).
Local Abbreviation name := (composed_name taskParams).

Lemma report_outcome ext h cs :
  (addedRevision <- containerAppsRevisions_getRevision client rg app name ;;
   match addedRevision with
   | None => throw (FailedToAddRevision name)
   | Some revision =>
       if truthy_boolean ext && truthy_string (fqdn revision)
       then
         setOutput "app-url"
           ("https://" +:+ (match fqdn revision with Some f => f | None => "" end)
              +:+ "/")
       else ret tt
   end) (mkState h cs [])
  = match cp_getRevision client cs rg app name with
    | Throw e => (Throw e, mkState h (cs ++ [CallGetRevision rg app name]) [])
    | Ok None =>
        (Throw (FailedToAddRevision name),
         mkState h (cs ++ [CallGetRevision rg app name]) [])
    | Ok (Some revision) =>
        (Ok tt,
         mkState h (cs ++ [CallGetRevision rg app name]) (endpoint_output ext revision))
    end.
Proof.
  unfold containerAppsRevisions_getRevision, bind, history, record_call, lift,
    endpoint_output. simpl.
  destruct (cp_getRevision client cs rg app name) as [[revision|]|e];
    [|reflexivity|reflexivity].
  destruct (truthy_boolean ext && truthy_string (fqdn revision)); reflexivity.
Qed.

Lemma beginUpdateAndWait_outcome {B} envelope body (k : unit -> M B) s :
  serialize_envelope envelope s = (Ok body, s) ->
  bind (containerApps_beginUpdateAndWait client rg app envelope) k s
  = match cp_beginUpdateAndWait client (calls s) rg app body with
    | Throw e =>
        (Throw e,
         mkState (heap s) (calls s ++ [CallUpdate rg app body]) (outputs s))
    | Ok u =>
        k u (mkState (heap s) (calls s ++ [CallUpdate rg app body]) (outputs s))
    end.
Proof.
  intros Hser. unfold containerApps_beginUpdateAndWait.
  unfold bind at 1. unfold bind at 1. rewrite Hser.
  unfold bind, history, record_call, lift. simpl.
  destruct (cp_beginUpdateAndWait client (calls s) rg app body); reflexivity.
Qed.

Lemma main_deploy_outcome snapshot :
  deactivateRevisionMode taskParams = false ->
  (String.length name <= 63)%nat ->
  cp_get client [] rg app = Ok snapshot ->
  main client taskParams = deploy_outcome client taskParams snapshot.
Proof.
  intros Hmode Hle Hget.
  unfold main, main_try. cbv zeta.
  rewrite (bind_ok _ _ _ _ _ (length_check_passes taskParams initial Hle)).
  destruct (materialize_spec snapshot (mkState [] [CallGet rg app] []))
    as (app' & Hm & Ht' & Hl' & Hme' & Hlr' & Hc').
  cbn [heap calls outputs] in Hm, Hc'. rewrite app_nil_l in Hm.
  rewrite (bind_ok _ (fun currentAppProperty => _) initial app'
             (mkState (response_traffic snapshot) [CallGet rg app] [])).
  2: { rewrite (containerApps_get_ok client taskParams snapshot initial Hget).
       exact Hm. }
  rewrite Hmode, Hc'. unfold deploy_outcome, response_traffic. cbv zeta.
  destruct (configuration snapshot) as [cfg|]; [|reflexivity].
  rewrite (bind_ok _ _ _ _ _ (nonnull_some _ _)). cbn [ingress].
  destruct (ingress cfg) as [ing|]; [|reflexivity].
  rewrite (bind_ok _ _ _ _ _ (nonnull_some _ _)). cbn [traffic].
  destruct (traffic ing) as [vs|]; [|reflexivity].
  rewrite (bind_ok _ _ _ _ _ (nonnull_some _ _)).
  destruct (reconcile_fresh_snapshot (latestRevisionName app') name vs
              [CallGet rg app] []) as (Hrun & Hout).
  cbn [length] in Hrun |- *.
  rewrite (bind_ok _ _ _ _ _ Hrun).
  rewrite Ht', Hlr'. rewrite Hlr' in Hout.
  destruct (template snapshot) as [tmpl|]; [|reflexivity].
  rewrite (bind_ok _ _ _ _ _ (nonnull_some _ _)).
  destruct (scale tmpl) as [sc|]; [|reflexivity].
  rewrite (bind_ok _ _ _ _ _ (nonnull_some _ _)).
  rewrite (beginUpdateAndWait_outcome _
             (submitted_envelope taskParams snapshot cfg ing vs sc)).
  2: { unfold serialize_envelope, containerAppEnvelope_of, networkConfig_of,
         ingressConfig_of, submitted_envelope.
       rewrite Hl', Hme'.
       cbn [env_configuration ic_external external targetPort customDomains dapr
            env_location env_managedEnvironmentId env_template].
       destruct (external ing) as [[|]|];
         cbn [loosely_false loosely_undefined orb delete_ingress nc_ingress nc_dapr
              nc_activeRevisionsMode truthy_boolean]; [|reflexivity|reflexivity].
       unfold serialize_ingressConfig, serialize_array, bind, ret.
       cbn [ic_traffic heap ic_external ic_targetPort ic_customDomains].
       rewrite Hout. reflexivity. }
  cbn [heap calls outputs].
  destruct (cp_beginUpdateAndWait client [CallGet rg app] rg app
              (submitted_envelope taskParams snapshot cfg ing vs sc)) as [[]|e];
    [|reflexivity].
  unfold ingressConfig_of. cbn [ic_external external].
  apply report_outcome.
Qed.

(** Every run is told by [run_outcome]. *)
Lemma main_run_outcome : main client taskParams = run_outcome client taskParams.
Proof.
  unfold run_outcome. cbv zeta. unfold MAX_REVISION_NAME_LENGTH.
  destruct (Nat.ltb_spec 63 (String.length name)) as [Hlong|Hle].
  - unfold main, main_try, bind, MAX_REVISION_NAME_LENGTH. cbv zeta.
    destruct (Nat.ltb_spec 63 (String.length name)); [reflexivity | lia].
  - destruct (cp_get client [] rg app) as [snapshot|e] eqn:Hget.
    + destruct (deactivateRevisionMode taskParams) eqn:Hmode.
      * rewrite (main_deactivation client taskParams snapshot Hmode Hle Hget).
        apply deactivateRevision_outcome.
      * apply (main_deploy_outcome snapshot Hmode Hle Hget).
    + unfold main, main_try. cbv zeta.
      rewrite (bind_ok _ _ _ _ _ (length_check_passes taskParams initial Hle)).
      unfold containerApps_get, bind, history, record_call, lift. simpl.
      rewrite Hget. reflexivity.
Qed.
End Outcome.

(** ** Properties of every run *)

Lemma length_append (a b : string) :
  String.length (a +:+ b) = (String.length a + String.length b)%nat.
Proof. induction a as [|c a IH]; simpl; [reflexivity | rewrite IH; reflexivity]. Qed.

Lemma composed_name_length taskParams :
  String.length (composed_name taskParams)
  = (String.length (containerAppName taskParams) + 2
     + String.length (revisionNameSuffix taskParams))%nat.
Proof. unfold composed_name. rewrite !length_append. simpl. lia. Qed.

Ltac split_outcome :=
  repeat match goal with
         | |- context [match ?x with _ => _ end] => destruct x
         end.

(** The name is checked on the lengths of its two parts: a run issues no
    call at all exactly when the name of the application and the suffix
    have more than 61 characters together.  In every other run the read of
    the resource is issued. *)
Theorem run_silent_iff_name_too_long
    (client : ControlPlane) (taskParams : TaskParameters) :
  (calls (snd (main client taskParams)) = []
   <-> (61 < String.length (containerAppName taskParams)
             + String.length (revisionNameSuffix taskParams))%nat)
  /\ (calls (snd (main client taskParams)) = []
      \/ exists rest,
           calls (snd (main client taskParams))
           = CallGet (resourceGroup taskParams) (containerAppName taskParams) :: rest).
Proof.
  rewrite main_run_outcome. unfold run_outcome. cbv zeta.
  unfold MAX_REVISION_NAME_LENGTH. rewrite composed_name_length.
  destruct (Nat.ltb_spec 63
              (String.length (containerAppName taskParams) + 2
               + String.length (revisionNameSuffix taskParams))) as [Hlong|Hle].
  - simpl. split; [split; [lia | reflexivity] | left; reflexivity].
  - assert (Hread : exists rest,
        calls (snd
          match cp_get client [] (resourceGroup taskParams)
                  (containerAppName taskParams) with
          | Ok snapshot =>
              if deactivateRevisionMode taskParams
              then deactivation_outcome client (resourceGroup taskParams)
                     (containerAppName taskParams) (response_traffic snapshot)
                     (composed_name taskParams)
                     (mkState (response_traffic snapshot)
                        [CallGet (resourceGroup taskParams)
                           (containerAppName taskParams)] [])
              else deploy_outcome client taskParams snapshot
          | Throw e =>
              (Throw e,
               mkState []
                 [CallGet (resourceGroup taskParams) (containerAppName taskParams)] [])
          end)
        = CallGet (resourceGroup taskParams) (containerAppName taskParams) :: rest).
    { unfold deactivation_outcome, deploy_outcome. cbv zeta.
      split_outcome; simpl; eexists; reflexivity. }
    destruct Hread as (rest & Hrest). rewrite Hrest.
    split; [split; [discriminate | lia] | right; eexists; reflexivity].
Qed.

Section Protocol.
Variable client : ControlPlane.
Variable taskParams : TaskParameters.

Local Abbreviation rg := (resourceGroup taskParams).
Local Abbreviation app := (containerAppName taskParams).
Local Abbreviation name := (composed_name taskParams).

(** Outside deactivation mode the calls of a run are, in this order, the
    read of the resource, one update and the re-read of the revision, or a
    beginning of that sequence: a deployment never requests a
    deactivation and never updates twice. *)
Theorem deploy_run_protocol :
  deactivateRevisionMode taskParams = false ->
  calls (snd (main client taskParams)) = []
  \/ calls (snd (main client taskParams)) = [CallGet rg app]
  \/ exists body,
       calls (snd (main client taskParams)) = [CallGet rg app; CallUpdate rg app body]
       \/ calls (snd (main client taskParams))
          = [CallGet rg app; CallUpdate rg app body; CallGetRevision rg app name].
Proof.
  intros Hmode. rewrite main_run_outcome. unfold run_outcome. cbv zeta.
  rewrite Hmode. unfold deploy_outcome. cbv zeta.
  split_outcome; simpl; eauto 6.
Qed.

(** In deactivation mode the calls of a run are the read of the resource,
    the deactivation request and the re-read of the revision, or a
    beginning of that sequence; no update is submitted, no output is set,
    and no object is left in memory but the entries as they were read. *)
Theorem deactivation_run_protocol :
  deactivateRevisionMode taskParams = true ->
  calls (snd (main client taskParams))
    `prefix_of` [CallGet rg app; CallDeactivate rg app name; CallGetRevision rg app name]
  /\ outputs (snd (main client taskParams)) = []
  /\ (heap (snd (main client taskParams)) = []
      \/ exists snapshot,
           cp_get client [] rg app = Ok snapshot
           /\ heap (snd (main client taskParams)) = response_traffic snapshot).
Proof.
  intros Hmode. rewrite main_run_outcome. unfold run_outcome. cbv zeta.
  rewrite Hmode. unfold deactivation_outcome.
  destruct (MAX_REVISION_NAME_LENGTH <? String.length name)%nat.
  { simpl. split; [apply prefix_nil|]. split; [reflexivity | left; reflexivity]. }
  destruct (cp_get client [] rg app) as [snapshot|e].
  2: { simpl. split; [exists [CallDeactivate rg app name; CallGetRevision rg app name];
                      reflexivity|].
       split; [reflexivity | left; reflexivity]. }
  split_outcome; cbn [snd fst calls outputs heap List.app];
    (split; [|split; [reflexivity | right; exists snapshot; split; reflexivity]]).
  all: try (exists [CallDeactivate rg app name; CallGetRevision rg app name];
            reflexivity).
  all: try (exists [CallGetRevision rg app name]; reflexivity).
  all: try (exists []; reflexivity).
Qed.

(** An output is set only by a deployment that succeeded, and it is the
    one output "app-url", an https address: a run that fails sets none. *)
Theorem run_outputs :
  outputs (snd (main client taskParams)) = []
  \/ (fst (main client taskParams) = Ok tt
      /\ deactivateRevisionMode taskParams = false
      /\ exists f,
           outputs (snd (main client taskParams))
           = [("app-url", "https://" +:+ f +:+ "/")]).
Proof.
  rewrite main_run_outcome. unfold run_outcome. cbv zeta.
  destruct (MAX_REVISION_NAME_LENGTH <? String.length name)%nat;
    [left; reflexivity|].
  destruct (cp_get client [] rg app) as [snapshot|e]; [|left; reflexivity].
  destruct (deactivateRevisionMode taskParams).
  - left. unfold deactivation_outcome. split_outcome; reflexivity.
  - unfold deploy_outcome, endpoint_output. cbv zeta.
    split_outcome; simpl; eauto.
Qed.

Lemma deploy_outcome_parts snapshot cfg ing vs sc :
  snapshot_parts snapshot = Some (cfg, ing, vs, sc) ->
  deploy_outcome client taskParams snapshot
  = let h := map (rewritten (latestRevisionName snapshot)) vs ++ [new_entry name] in
    let body := submitted_envelope taskParams snapshot cfg ing vs sc in
    match cp_beginUpdateAndWait client [CallGet rg app] rg app body with
    | Throw e => (Throw e, mkState h [CallGet rg app; CallUpdate rg app body] [])
    | Ok _ =>
        match cp_getRevision client [CallGet rg app; CallUpdate rg app body]
                rg app name with
        | Throw e =>
            (Throw e,
             mkState h
               [CallGet rg app; CallUpdate rg app body; CallGetRevision rg app name] [])
        | Ok None =>
            (Throw (FailedToAddRevision name),
             mkState h
               [CallGet rg app; CallUpdate rg app body; CallGetRevision rg app name] [])
        | Ok (Some revision) =>
            (Ok tt,
             mkState h
               [CallGet rg app; CallUpdate rg app body; CallGetRevision rg app name]
               (endpoint_output (external ing) revision))
        end
    end.
Proof.
  unfold snapshot_parts, deploy_outcome. cbv zeta.
  destruct (configuration snapshot) as [cfg0|]; [|discriminate].
  destruct (ingress cfg0) as [ing0|]; [|discriminate].
  destruct (traffic ing0) as [vs0|]; [|discriminate].
  destruct (template snapshot) as [tmpl|]; [|discriminate].
  destruct (scale tmpl) as [sc0|]; [|discriminate].
  intros [= -> -> -> ->]. reflexivity.
Qed.

Lemma deploy_run_outcome snapshot :
  deactivateRevisionMode taskParams = false ->
  (String.length name <= 63)%nat ->
  cp_get client [] rg app = Ok snapshot ->
  main client taskParams = deploy_outcome client taskParams snapshot.
Proof.
  intros Hmode Hle Hget. rewrite main_run_outcome. unfold run_outcome. cbv zeta.
  unfold MAX_REVISION_NAME_LENGTH.
  destruct (Nat.ltb_spec 63 (String.length name)); [lia|].
  rewrite Hget, Hmode. reflexivity.
Qed.

(** A deployment that goes through: the snapshot has all its parts, the
    update is accepted and the re-read finds the revision.  The run
    succeeds after exactly three calls, the update carrying the envelope
    with the reconciled traffic; the entries read are left rewritten and
    the new entry is behind them; the address of the revision is the
    output when the ingress is external and the revision has a non-empty
    [fqdn], and there is no output otherwise. *)
Theorem deploy_run_succeeds snapshot cfg ing vs sc revision :
  deactivateRevisionMode taskParams = false ->
  (String.length name <= 63)%nat ->
  cp_get client [] rg app = Ok snapshot ->
  snapshot_parts snapshot = Some (cfg, ing, vs, sc) ->
  cp_beginUpdateAndWait client [CallGet rg app] rg app
    (submitted_envelope taskParams snapshot cfg ing vs sc) = Ok tt ->
  cp_getRevision client
    [CallGet rg app;
     CallUpdate rg app (submitted_envelope taskParams snapshot cfg ing vs sc)]
    rg app name = Ok (Some revision) ->
  main client taskParams
  = (Ok tt,
     mkState
       (map (rewritten (latestRevisionName snapshot)) vs ++ [new_entry name])
       [CallGet rg app;
        CallUpdate rg app (submitted_envelope taskParams snapshot cfg ing vs sc);
        CallGetRevision rg app name]
       (if truthy_boolean (external ing) && truthy_string (fqdn revision)
        then [("app-url",
               "https://" +:+ (match fqdn revision with Some f => f | None => "" end)
                 +:+ "/")]
        else [])).
Proof.
  intros Hmode Hle Hget Hparts Hupd Hrev.
  rewrite (deploy_run_outcome snapshot Hmode Hle Hget).
  rewrite (deploy_outcome_parts snapshot cfg ing vs sc Hparts). cbv zeta.
  rewrite Hupd, Hrev. reflexivity.
Qed.

(** The update is accepted but the re-read finds no revision: the run
    fails with the failed-to-add error and sets no output; the update has
    been submitted all the same. *)
Theorem deploy_run_revision_missing snapshot cfg ing vs sc :
  deactivateRevisionMode taskParams = false ->
  (String.length name <= 63)%nat ->
  cp_get client [] rg app = Ok snapshot ->
  snapshot_parts snapshot = Some (cfg, ing, vs, sc) ->
  cp_beginUpdateAndWait client [CallGet rg app] rg app
    (submitted_envelope taskParams snapshot cfg ing vs sc) = Ok tt ->
  cp_getRevision client
    [CallGet rg app;
     CallUpdate rg app (submitted_envelope taskParams snapshot cfg ing vs sc)]
    rg app name = Ok None ->
  main client taskParams
  = (Throw (FailedToAddRevision name),
     mkState
       (map (rewritten (latestRevisionName snapshot)) vs ++ [new_entry name])
       [CallGet rg app;
        CallUpdate rg app (submitted_envelope taskParams snapshot cfg ing vs sc);
        CallGetRevision rg app name]
       []).
Proof.
  intros Hmode Hle Hget Hparts Hupd Hrev.
  rewrite (deploy_run_outcome snapshot Hmode Hle Hget).
  rewrite (deploy_outcome_parts snapshot cfg ing vs sc Hparts). cbv zeta.
  rewrite Hupd, Hrev. reflexivity.
Qed.

(** The control plane rejects the update: the run fails with the error
    of the control plane as it is, does not re-read the revision and sets
    no output. *)
Theorem deploy_run_update_rejected snapshot cfg ing vs sc e :
  deactivateRevisionMode taskParams = false ->
  (String.length name <= 63)%nat ->
  cp_get client [] rg app = Ok snapshot ->
  snapshot_parts snapshot = Some (cfg, ing, vs, sc) ->
  cp_beginUpdateAndWait client [CallGet rg app] rg app
    (submitted_envelope taskParams snapshot cfg ing vs sc) = Throw e ->
  main client taskParams
  = (Throw e,
     mkState
       (map (rewritten (latestRevisionName snapshot)) vs ++ [new_entry name])
       [CallGet rg app;
        CallUpdate rg app (submitted_envelope taskParams snapshot cfg ing vs sc)]
       []).
Proof.
  intros Hmode Hle Hget Hparts Hupd.
  rewrite (deploy_run_outcome snapshot Hmode Hle Hget).
  rewrite (deploy_outcome_parts snapshot cfg ing vs sc Hparts). cbv zeta.
  rewrite Hupd. reflexivity.
Qed.

(** A snapshot that lacks its configuration, the ingress, the traffic
    list, the template or the scale: outside deactivation mode the run
    fails with a [TypeError] after the read, and nothing is submitted. *)
Theorem deploy_run_incomplete_snapshot snapshot :
  deactivateRevisionMode taskParams = false ->
  (String.length name <= 63)%nat ->
  cp_get client [] rg app = Ok snapshot ->
  snapshot_parts snapshot = None ->
  fst (main client taskParams) = Throw TypeError
  /\ calls (snd (main client taskParams)) = [CallGet rg app]
  /\ outputs (snd (main client taskParams)) = [].
Proof.
  intros Hmode Hle Hget Hparts.
  rewrite (deploy_run_outcome snapshot Hmode Hle Hget).
  unfold snapshot_parts in Hparts. unfold deploy_outcome. cbv zeta.
  destruct (configuration snapshot) as [cfg|]; [|repeat split].
  destruct (ingress cfg) as [ing|]; [|repeat split].
  destruct (traffic ing) as [vs|]; [|repeat split].
  destruct (template snapshot) as [tmpl|]; [|repeat split].
  destruct (scale tmpl) as [sc|]; [discriminate|repeat split].
Qed.

(** The control plane rejects the read: in either mode the run fails with
    the error of the control plane as it is, and issues no other call. *)
Theorem run_read_rejected e :
  (String.length name <= 63)%nat ->
  cp_get client [] rg app = Throw e ->
  main client taskParams = (Throw e, mkState [] [CallGet rg app] []).
Proof.
  intros Hle Hget. rewrite main_run_outcome. unfold run_outcome. cbv zeta.
  unfold MAX_REVISION_NAME_LENGTH.
  destruct (Nat.ltb_spec 63 (String.length name)); [lia|].
  rewrite Hget. reflexivity.
Qed.

Lemma deactivation_run_outcome snapshot :
  deactivateRevisionMode taskParams = true ->
  (String.length name <= 63)%nat ->
  cp_get client [] rg app = Ok snapshot ->
  main client taskParams
  = deactivation_outcome client rg app (response_traffic snapshot) name
      (mkState (response_traffic snapshot) [CallGet rg app] []).
Proof.
  intros Hmode Hle Hget. rewrite main_run_outcome. unfold run_outcome. cbv zeta.
  unfold MAX_REVISION_NAME_LENGTH.
  destruct (Nat.ltb_spec 63 (String.length name)); [lia|].
  rewrite Hget, Hmode. reflexivity.
Qed.

(** A deactivation that goes through the check: the weights of the
    entries naming the revision sum to zero, the request is accepted and
    the re-read finds the revision.  The run succeeds when the revision is
    no longer active and fails with the cannot-be-deactivated error when
    it still is; either way three calls have been issued, and the entries
    read are as they were read -- a floating alias is not pinned in this
    mode. *)
Theorem deactivation_run_confirms snapshot revision :
  deactivateRevisionMode taskParams = true ->
  (String.length name <= 63)%nat ->
  cp_get client [] rg app = Ok snapshot ->
  target_weight (response_traffic snapshot) name = Num 0 ->
  cp_deactivateRevision client [CallGet rg app] rg app name = Ok tt ->
  cp_getRevision client [CallGet rg app; CallDeactivate rg app name] rg app name
  = Ok (Some revision) ->
  main client taskParams
  = (if truthy_boolean (active revision)
     then Throw (CannotBeDeactivated name app)
     else Ok tt,
     mkState (response_traffic snapshot)
       [CallGet rg app; CallDeactivate rg app name; CallGetRevision rg app name]
       []).
Proof.
  intros Hmode Hle Hget Hz Hdeact Hrev.
  rewrite (deactivation_run_outcome snapshot Hmode Hle Hget).
  unfold deactivation_outcome. rewrite Hz. cbn [not_zero Z.eqb negb calls List.app].
  rewrite Hdeact, Hrev. reflexivity.
Qed.

(** In deactivation mode a snapshot in which no entry names the revision
    -- in particular one without ingress or without a traffic list, which
    line 40 reads as an empty list -- passes the check: the deactivation
    is requested. *)
Theorem deactivation_run_unrouted_revision snapshot :
  deactivateRevisionMode taskParams = true ->
  (String.length name <= 63)%nat ->
  cp_get client [] rg app = Ok snapshot ->
  Forall (fun t => revisionName t <> Some name) (response_traffic snapshot) ->
  exists rest,
    calls (snd (main client taskParams))
    = CallGet rg app :: CallDeactivate rg app name :: rest.
Proof.
  intros Hmode Hle Hget Hnone.
  rewrite (deactivation_run_outcome snapshot Hmode Hle Hget).
  assert (Hz : target_weight (response_traffic snapshot) name = Num 0).
  { apply target_weight_no_match.
    induction Hnone as [|t ts Ht _ IH]; [reflexivity|]. simpl.
    destruct (strictly_equal (revisionName t) name) eqn:E; [|exact IH].
    apply strictly_equal_spec in E. contradiction. }
  unfold deactivation_outcome. rewrite Hz. cbn [not_zero Z.eqb negb calls List.app].
  split_outcome; simpl; eexists; reflexivity.
Qed.
End Protocol.

(** ** What is submitted *)

Lemma deploy_outcome_incomplete client taskParams snapshot :
  snapshot_parts snapshot = None ->
  fst (deploy_outcome client taskParams snapshot) = Throw TypeError
  /\ calls (snd (deploy_outcome client taskParams snapshot))
     = [CallGet (resourceGroup taskParams) (containerAppName taskParams)]
  /\ outputs (snd (deploy_outcome client taskParams snapshot)) = [].
Proof.
  intros Hparts. unfold snapshot_parts in Hparts. unfold deploy_outcome. cbv zeta.
  destruct (configuration snapshot) as [cfg|]; [|repeat split].
  destruct (ingress cfg) as [ing|]; [|repeat split].
  destruct (traffic ing) as [vs|]; [|repeat split].
  destruct (template snapshot) as [tmpl|]; [|repeat split].
  destruct (scale tmpl) as [sc|]; [discriminate|repeat split].
Qed.

(** Whatever update a run submits, it is for the resource of the task
    parameters and is built from the snapshot read in the same run, outside
    deactivation mode: location, environment, Dapr settings and replica
    bounds are those of the snapshot; there is one container, named after
    the application, with the image of the task parameters; the scale rules
    are the one http rule at 50 concurrent requests, whatever rules the
    resource had; the revision suffix is the suffix alone; the
    revisions mode is "Multiple"; and the ingress is there only for an
    external ingress, with port and custom domains of the snapshot (no
    domains read as an empty list) and the reconciled traffic. *)
Theorem submitted_update
    (client : ControlPlane) (taskParams : TaskParameters)
    (rg0 app0 : string) (body : Envelope TrafficWeight) :
  In (CallUpdate rg0 app0 body) (calls (snd (main client taskParams))) ->
  rg0 = resourceGroup taskParams
  /\ app0 = containerAppName taskParams
  /\ deactivateRevisionMode taskParams = false
  /\ exists snapshot cfg ing vs sc,
       cp_get client [] (resourceGroup taskParams) (containerAppName taskParams)
       = Ok snapshot
       /\ snapshot_parts snapshot = Some (cfg, ing, vs, sc)
       /\ body
          = mkEnvelope
              (mkNetworkConfig (dapr cfg)
                 (if truthy_boolean (external ing)
                  then
                    Some (mkIngressConfig (Some true) (targetPort ing)
                            (map (pinned (latestRevisionName snapshot))
                               (List.filter carried_over vs)
                             ++ [new_entry (composed_name taskParams)])
                            (match customDomains ing with
                             | Some ds => ds
                             | None => []
                             end))
                  else None)
                 "Multiple")
              (location snapshot) (managedEnvironmentId snapshot)
              (mkEnvelopeTemplate
                 [mkContainerConfig (containerAppName taskParams) (imageName taskParams)]
                 (mkScaleConfig (maxReplicas sc) (minReplicas sc)
                    [mkScaleRule "httpscalingrule" "http"
                       [("concurrentRequests", "50")]])
                 (revisionNameSuffix taskParams)).
Proof.
  rewrite main_run_outcome. unfold run_outcome. cbv zeta.
  destruct (MAX_REVISION_NAME_LENGTH <? String.length (composed_name taskParams))%nat.
  { intros []. }
  destruct (cp_get client [] (resourceGroup taskParams) (containerAppName taskParams))
    as [snapshot|e] eqn:Hget.
  2: { simpl. intros [H|[]]. discriminate. }
  destruct (deactivateRevisionMode taskParams).
  { unfold deactivation_outcome. split_outcome; simpl; intros H;
      repeat (destruct H as [H|H]; [discriminate|]); destruct H. }
  destruct (snapshot_parts snapshot) as [[[[cfg ing] vs] sc]|] eqn:Hparts.
  2: { destruct (deploy_outcome_incomplete client taskParams snapshot Hparts)
         as (_ & Hcalls & _).
       rewrite Hcalls. intros [H|[]]. discriminate. }
  rewrite (deploy_outcome_parts client taskParams snapshot cfg ing vs sc Hparts).
  cbv zeta.
  assert (Hbody : In (CallUpdate rg0 app0 body)
                    [CallGet (resourceGroup taskParams) (containerAppName taskParams);
                     CallUpdate (resourceGroup taskParams) (containerAppName taskParams)
                       (submitted_envelope taskParams snapshot cfg ing vs sc);
                     CallGetRevision (resourceGroup taskParams)
                       (containerAppName taskParams) (composed_name taskParams)] ->
                  rg0 = resourceGroup taskParams
                  /\ app0 = containerAppName taskParams
                  /\ body = submitted_envelope taskParams snapshot cfg ing vs sc).
  { intros [H|[H|[H|[]]]]; try discriminate.
    injection H as <- <- <-. repeat split. }
  intros Hin.
  assert (Hin' : In (CallUpdate rg0 app0 body)
                    [CallGet (resourceGroup taskParams) (containerAppName taskParams);
                     CallUpdate (resourceGroup taskParams) (containerAppName taskParams)
                       (submitted_envelope taskParams snapshot cfg ing vs sc);
                     CallGetRevision (resourceGroup taskParams)
                       (containerAppName taskParams) (composed_name taskParams)]).
  { revert Hin. split_outcome; simpl; intuition. }
  destruct (Hbody Hin') as (-> & -> & ->).
  split; [reflexivity|]. split; [reflexivity|]. split; [reflexivity|].
  exists snapshot, cfg, ing, vs, sc.
  split; [reflexivity|]. split; [exact Hparts|].
  unfold submitted_envelope, scaleConfig_of, httpscalingrule.
  destruct (external ing) as [[|]|]; reflexivity.
Qed.

(** ** More on the deactivation check *)

Section DeactivationFailures.
Variable client : ControlPlane.

(** The request is accepted but the re-read finds no revision: reading
    [active] of nothing throws a [TypeError], after the deactivation has
    been requested. *)
Theorem deactivateRevision_revision_missing
    (rg app : string) (traffic : list TrafficWeight) (name : string) (s : State) :
  target_weight traffic name = Num 0 ->
  cp_deactivateRevision client (calls s) rg app name = Ok tt ->
  cp_getRevision client (calls s ++ [CallDeactivate rg app name]) rg app name
  = Ok None ->
  deactivateRevision client rg app traffic name s
  = (Throw TypeError,
     mkState (heap s)
       (calls s ++ [CallDeactivate rg app name; CallGetRevision rg app name])
       (outputs s)).
Proof.
  intros Hz Hdeact Hrev. rewrite deactivateRevision_outcome.
  unfold deactivation_outcome. rewrite Hz. cbn [not_zero Z.eqb negb].
  rewrite Hdeact, Hrev. reflexivity.
Qed.

(** The control plane rejects the request: the run fails with the error
    of the control plane as it is and does not re-read the revision. *)
Theorem deactivateRevision_request_rejected
    (rg app : string) (traffic : list TrafficWeight) (name : string) (s : State)
    (e : Error) :
  target_weight traffic name = Num 0 ->
  cp_deactivateRevision client (calls s) rg app name = Throw e ->
  deactivateRevision client rg app traffic name s
  = (Throw e,
     mkState (heap s) (calls s ++ [CallDeactivate rg app name]) (outputs s)).
Proof.
  intros Hz Hdeact. rewrite deactivateRevision_outcome.
  unfold deactivation_outcome. rewrite Hz. cbn [not_zero Z.eqb negb].
  rewrite Hdeact. reflexivity.
Qed.

End DeactivationFailures.

(** ** More on the reconciler *)

Lemma filter_carried_over_pinned latest ts :
  List.filter carried_over (map (pinned latest) ts)
  = map (pinned latest) (List.filter carried_over ts).
Proof.
  induction ts as [|t ts IH]; simpl; [reflexivity|].
  replace (carried_over (pinned latest t)) with (carried_over t)
    by (unfold carried_over; rewrite weight_pinned; reflexivity).
  destruct (carried_over t); simpl; rewrite IH; reflexivity.
Qed.

Lemma filter_carried_over_idempotent ts :
  List.filter carried_over (List.filter carried_over ts) = List.filter carried_over ts.
Proof.
  induction ts as [|t ts IH]; simpl; [reflexivity|].
  destruct (carried_over t) eqn:E; simpl; [rewrite E, IH|]; auto.
Qed.

Lemma pinned_twice latest latest' t :
  pinned latest' (pinned latest t) = pinned latest t.
Proof. apply pinned_fixed, latestRevision_pinned. Qed.

(** The output of the reconciler is stable under the reconciler: run on
    its own output, for any latest revision and any new name, it drops the
    zero-weight entry appended before, carries the other entries over as
    they are and appends the entry of the new name.  Entries of earlier
    review revisions do not pile up. *)
Theorem reconcile_again
    (s : State) (arr : list loc) (vs : list TrafficWeight)
    (latest : option string) (name : string) :
  read_array (heap s) arr = Some vs ->
  exists (out : list loc) (s1 : State) (carried : list TrafficWeight),
    reconcileTraffic latest name arr s = (Ok out, s1)
    /\ read_array (heap s1) out = Some (carried ++ [new_entry name])
    /\ forall (latest' : option string) (name' : string),
         exists (out' : list loc) (s2 : State),
           reconcileTraffic latest' name' out s1 = (Ok out', s2)
           /\ read_array (heap s2) out' = Some (carried ++ [new_entry name']).
Proof.
  intros Hr.
  destruct (reconcileTraffic_spec latest name arr vs s Hr)
    as (h1 & Hrun1 & _ & _ & Hout1 & _).
  eexists _, _, _. split; [exact Hrun1|]. cbn [heap].
  split; [exact Hout1|].
  intros latest' name'.
  destruct (reconcileTraffic_spec latest' name' _ _
              (mkState (h1 ++ [new_entry name]) (calls s) (outputs s)) Hout1)
    as (h2 & Hrun2 & _ & _ & Hout2 & _).
  cbn [heap calls outputs] in Hrun2, Hout2.
  eexists _, _. split; [exact Hrun2|]. cbn [heap]. rewrite Hout2.
  rewrite List.filter_app, map_app. simpl. rewrite app_nil_r.
  rewrite filter_carried_over_pinned, filter_carried_over_idempotent.
  rewrite map_map.
  rewrite (map_ext _ (pinned latest) (fun t => pinned_twice latest latest' t)).
  reflexivity.
Qed.

(** Every entry of the output but the last has a weight that is set and
    not zero, and keeps its label; the output is one longer than the
    number of such entries in the input, so at most one longer than the
    input. *)
Theorem reconcile_output_shape
    (s : State) (arr : list loc) (vs : list TrafficWeight)
    (latest : option string) (name : string) :
  read_array (heap s) arr = Some vs ->
  exists (out : list loc) (s' : State) (carried : list TrafficWeight),
    reconcileTraffic latest name arr s = (Ok out, s')
    /\ read_array (heap s') out = Some (carried ++ [new_entry name])
    /\ Forall (fun t => exists w, weight t = Some w /\ w <> 0) carried
    /\ map label carried = map label (List.filter carried_over vs)
    /\ length out = S (length (List.filter carried_over vs))
    /\ (length out <= S (length arr))%nat.
Proof.
  intros Hr.
  destruct (reconcileTraffic_spec latest name arr vs s Hr)
    as (h' & Hrun & _ & _ & Hout & _).
  eexists _, _, _. split; [exact Hrun|]. cbn [heap].
  split; [exact Hout|].
  assert (Hlen : length (List.filter (kept_at (heap s)) arr ++ [length (heap s)])
                 = S (length (List.filter carried_over vs))).
  { apply read_array_length in Hout. rewrite <- Hout.
    rewrite length_app, length_map. simpl. lia. }
  split; [|split; [|split]].
  - apply Forall_forall. intros t Ht.
    apply list_elem_of_In, in_map_iff in Ht as (v & <- & Hv).
    apply filter_In in Hv as [_ Hc]. apply carried_over_spec in Hc.
    rewrite weight_pinned. exact Hc.
  - rewrite map_map. apply map_ext. intros t. unfold pinned.
    destruct (truthy_boolean (latestRevision t)); reflexivity.
  - exact Hlen.
  - rewrite Hlen. apply read_array_length in Hr. rewrite <- Hr.
    pose proof (filter_length_le carried_over vs). lia.
Qed.

(** When no entry of nonzero weight floats on the latest revision, the
    reconciler assigns to nothing: the snapshot reads as before, and the
    output is its entries of nonzero weight, as they are, with the new
    entry behind. *)
Theorem reconcile_without_alias
    (s : State) (arr : list loc) (vs : list TrafficWeight)
    (latest : option string) (name : string) :
  read_array (heap s) arr = Some vs ->
  Forall (fun t => carried_over t = true -> latestRevision t <> Some true) vs ->
  exists (out : list loc) (s' : State),
    reconcileTraffic latest name arr s = (Ok out, s')
    /\ read_array (heap s') out
       = Some (List.filter carried_over vs ++ [new_entry name])
    /\ read_array (heap s') arr = Some vs.
Proof.
  intros Hr Hfixed.
  destruct (reconcileTraffic_spec latest name arr vs s Hr)
    as (h' & Hrun & _ & _ & Hout & Hsnap).
  eexists _, _. split; [exact Hrun|]. cbn [heap].
  split.
  - rewrite Hout. do 2 f_equal.
    clear -Hfixed. induction Hfixed as [|t ts Ht _ IH]; simpl; [reflexivity|].
    destruct (carried_over t) eqn:E; [|exact IH]. simpl.
    rewrite IH, (pinned_fixed latest t (Ht eq_refl)). reflexivity.
  - rewrite Hsnap. f_equal.
    clear -Hfixed. induction Hfixed as [|t ts Ht _ IH]; simpl; [reflexivity|].
    rewrite IH. f_equal. unfold rewritten.
    destruct (carried_over t) eqn:E; [|reflexivity].
    apply pinned_fixed. apply Ht. reflexivity.
Qed.


(** ** The properties above, each at an input *)

Lemma deploy_run_protocol_witness :
  let client := sample_client sample_snapshot in
  deactivateRevisionMode sample_taskParams = false
  /\ (calls (snd (main client sample_taskParams)) = []
      \/ calls (snd (main client sample_taskParams)) = [CallGet "rg" "app"]
      \/ exists body,
           calls (snd (main client sample_taskParams))
           = [CallGet "rg" "app"; CallUpdate "rg" "app" body]
           \/ calls (snd (main client sample_taskParams))
              = [CallGet "rg" "app"; CallUpdate "rg" "app" body;
                 CallGetRevision "rg" "app" "app--abc1234"]).
Proof.
  intros client. split; [reflexivity|].
  apply (deploy_run_protocol client sample_taskParams). reflexivity.
Defined.

Lemma deactivation_run_protocol_witness :
  let client := sample_client sample_snapshot in
  deactivateRevisionMode sample_deactivation = true
  /\ calls (snd (main client sample_deactivation))
       `prefix_of` [CallGet "rg" "app"; CallDeactivate "rg" "app" "app--abc1234";
                    CallGetRevision "rg" "app" "app--abc1234"]
  /\ outputs (snd (main client sample_deactivation)) = []
  /\ (heap (snd (main client sample_deactivation)) = []
      \/ exists snapshot,
           cp_get client [] "rg" "app" = Ok snapshot
           /\ heap (snd (main client sample_deactivation)) = response_traffic snapshot).
Proof.
  intros client. split; [reflexivity|].
  apply (deactivation_run_protocol client sample_deactivation). reflexivity.
Defined.

Lemma deploy_run_succeeds_witness :
  let client :=
    fixed_client (Ok sample_snapshot) (Ok tt) (Ok (Some sample_revision)) (Ok tt) in
  deactivateRevisionMode sample_taskParams = false
  /\ (String.length (composed_name sample_taskParams) <= 63)%nat
  /\ cp_get client [] "rg" "app" = Ok sample_snapshot
  /\ snapshot_parts sample_snapshot
     = Some (sample_configuration, sample_ingress, sample_traffic, sample_scale)
  /\ cp_beginUpdateAndWait client [CallGet "rg" "app"] "rg" "app" sample_body = Ok tt
  /\ cp_getRevision client [CallGet "rg" "app"; CallUpdate "rg" "app" sample_body]
       "rg" "app" "app--abc1234" = Ok (Some sample_revision)
  /\ main client sample_taskParams
     = (Ok tt,
        mkState
          [ mkTrafficWeight (Some "app--old1") (Some 100) (Some false) None;
            mkTrafficWeight (Some "app--abc1234") (Some 0) (Some false) None ]
          [CallGet "rg" "app"; CallUpdate "rg" "app" sample_body;
           CallGetRevision "rg" "app" "app--abc1234"]
          [("app-url", "https://app-abc1234.example.com/")]).
Proof.
  intros client.
  assert (Hle : (String.length (composed_name sample_taskParams) <= 63)%nat)
    by (apply Nat.leb_le; reflexivity).
  split; [reflexivity|]. split; [exact Hle|]. split; [reflexivity|].
  split; [reflexivity|]. split; [reflexivity|]. split; [reflexivity|].
  apply (deploy_run_succeeds client sample_taskParams sample_snapshot
           sample_configuration sample_ingress sample_traffic sample_scale
           sample_revision); try reflexivity.
  exact Hle.
Defined.

Lemma deploy_run_revision_missing_witness :
  let client := fixed_client (Ok sample_snapshot) (Ok tt) (Ok None) (Ok tt) in
  deactivateRevisionMode sample_taskParams = false
  /\ (String.length (composed_name sample_taskParams) <= 63)%nat
  /\ cp_get client [] "rg" "app" = Ok sample_snapshot
  /\ snapshot_parts sample_snapshot
     = Some (sample_configuration, sample_ingress, sample_traffic, sample_scale)
  /\ cp_beginUpdateAndWait client [CallGet "rg" "app"] "rg" "app" sample_body = Ok tt
  /\ cp_getRevision client [CallGet "rg" "app"; CallUpdate "rg" "app" sample_body]
       "rg" "app" "app--abc1234" = Ok None
  /\ main client sample_taskParams
     = (Throw (FailedToAddRevision "app--abc1234"),
        mkState
          [ mkTrafficWeight (Some "app--old1") (Some 100) (Some false) None;
            mkTrafficWeight (Some "app--abc1234") (Some 0) (Some false) None ]
          [CallGet "rg" "app"; CallUpdate "rg" "app" sample_body;
           CallGetRevision "rg" "app" "app--abc1234"]
          []).
Proof.
  intros client.
  assert (Hle : (String.length (composed_name sample_taskParams) <= 63)%nat)
    by (apply Nat.leb_le; reflexivity).
  split; [reflexivity|]. split; [exact Hle|]. split; [reflexivity|].
  split; [reflexivity|]. split; [reflexivity|]. split; [reflexivity|].
  apply (deploy_run_revision_missing client sample_taskParams sample_snapshot
           sample_configuration sample_ingress sample_traffic sample_scale);
    try reflexivity.
  exact Hle.
Defined.

Lemma deploy_run_update_rejected_witness :
  let client :=
    fixed_client (Ok sample_snapshot) (Throw (ClientError "conflict"))
      (Ok (Some sample_revision)) (Ok tt) in
  deactivateRevisionMode sample_taskParams = false
  /\ (String.length (composed_name sample_taskParams) <= 63)%nat
  /\ cp_get client [] "rg" "app" = Ok sample_snapshot
  /\ snapshot_parts sample_snapshot
     = Some (sample_configuration, sample_ingress, sample_traffic, sample_scale)
  /\ cp_beginUpdateAndWait client [CallGet "rg" "app"] "rg" "app" sample_body
     = Throw (ClientError "conflict")
  /\ main client sample_taskParams
     = (Throw (ClientError "conflict"),
        mkState
          [ mkTrafficWeight (Some "app--old1") (Some 100) (Some false) None;
            mkTrafficWeight (Some "app--abc1234") (Some 0) (Some false) None ]
          [CallGet "rg" "app"; CallUpdate "rg" "app" sample_body]
          []).
Proof.
  intros client.
  assert (Hle : (String.length (composed_name sample_taskParams) <= 63)%nat)
    by (apply Nat.leb_le; reflexivity).
  split; [reflexivity|]. split; [exact Hle|]. split; [reflexivity|].
  split; [reflexivity|]. split; [reflexivity|].
  apply (deploy_run_update_rejected client sample_taskParams sample_snapshot
           sample_configuration sample_ingress sample_traffic sample_scale);
    try reflexivity.
  exact Hle.
Defined.

Lemma deploy_run_incomplete_snapshot_witness :
  let client := sample_client snapshot_without_template in
  deactivateRevisionMode sample_taskParams = false
  /\ (String.length (composed_name sample_taskParams) <= 63)%nat
  /\ cp_get client [] "rg" "app" = Ok snapshot_without_template
  /\ snapshot_parts snapshot_without_template = None
  /\ fst (main client sample_taskParams) = Throw TypeError
  /\ calls (snd (main client sample_taskParams)) = [CallGet "rg" "app"]
  /\ outputs (snd (main client sample_taskParams)) = [].
Proof.
  intros client.
  assert (Hle : (String.length (composed_name sample_taskParams) <= 63)%nat)
    by (apply Nat.leb_le; reflexivity).
  split; [reflexivity|]. split; [exact Hle|]. split; [reflexivity|].
  split; [reflexivity|].
  apply (deploy_run_incomplete_snapshot client sample_taskParams
           snapshot_without_template); try reflexivity.
  exact Hle.
Defined.

Lemma run_read_rejected_witness :
  let client :=
    fixed_client (Throw (ClientError "forbidden")) (Ok tt) (Ok None) (Ok tt) in
  (String.length (composed_name sample_deactivation) <= 63)%nat
  /\ cp_get client [] "rg" "app" = Throw (ClientError "forbidden")
  /\ main client sample_deactivation
     = (Throw (ClientError "forbidden"), mkState [] [CallGet "rg" "app"] []).
Proof.
  intros client.
  assert (Hle : (String.length (composed_name sample_deactivation) <= 63)%nat)
    by (apply Nat.leb_le; reflexivity).
  split; [exact Hle|]. split; [reflexivity|].
  apply (run_read_rejected client sample_deactivation); [exact Hle | reflexivity].
Defined.

Lemma deactivation_run_confirms_witness :
  let client :=
    fixed_client (Ok sample_snapshot) (Ok tt)
      (Ok (Some (mkRevision (Some false) None))) (Ok tt) in
  deactivateRevisionMode sample_deactivation = true
  /\ (String.length (composed_name sample_deactivation) <= 63)%nat
  /\ cp_get client [] "rg" "app" = Ok sample_snapshot
  /\ target_weight (response_traffic sample_snapshot) "app--abc1234" = Num 0
  /\ cp_deactivateRevision client [CallGet "rg" "app"] "rg" "app" "app--abc1234" = Ok tt
  /\ cp_getRevision client
       [CallGet "rg" "app"; CallDeactivate "rg" "app" "app--abc1234"]
       "rg" "app" "app--abc1234"
     = Ok (Some (mkRevision (Some false) None))
  /\ main client sample_deactivation
     = (Ok tt,
        mkState [mkTrafficWeight None (Some 100) (Some true) None]
          [CallGet "rg" "app"; CallDeactivate "rg" "app" "app--abc1234";
           CallGetRevision "rg" "app" "app--abc1234"]
          []).
Proof.
  intros client.
  assert (Hle : (String.length (composed_name sample_deactivation) <= 63)%nat)
    by (apply Nat.leb_le; reflexivity).
  split; [reflexivity|]. split; [exact Hle|]. split; [reflexivity|].
  split; [reflexivity|]. split; [reflexivity|]. split; [reflexivity|].
  apply (deactivation_run_confirms client sample_deactivation sample_snapshot
           (mkRevision (Some false) None)); try reflexivity.
  exact Hle.
Defined.

Lemma deactivation_run_unrouted_revision_witness :
  let client := sample_client snapshot_without_traffic in
  deactivateRevisionMode sample_deactivation = true
  /\ (String.length (composed_name sample_deactivation) <= 63)%nat
  /\ cp_get client [] "rg" "app" = Ok snapshot_without_traffic
  /\ Forall (fun t => revisionName t <> Some "app--abc1234")
       (response_traffic snapshot_without_traffic)
  /\ exists rest,
       calls (snd (main client sample_deactivation))
       = CallGet "rg" "app" :: CallDeactivate "rg" "app" "app--abc1234" :: rest.
Proof.
  intros client.
  assert (Hle : (String.length (composed_name sample_deactivation) <= 63)%nat)
    by (apply Nat.leb_le; reflexivity).
  split; [reflexivity|]. split; [exact Hle|]. split; [reflexivity|].
  split; [constructor|].
  apply (deactivation_run_unrouted_revision client sample_deactivation
           snapshot_without_traffic); try reflexivity; [exact Hle | constructor].
Defined.

Lemma deactivateRevision_revision_missing_witness :
  let client := fixed_client (Ok sample_snapshot) (Ok tt) (Ok None) (Ok tt) in
  target_weight [] "app--abc1234" = Num 0
  /\ cp_deactivateRevision client [] "rg" "app" "app--abc1234" = Ok tt
  /\ cp_getRevision client [CallDeactivate "rg" "app" "app--abc1234"]
       "rg" "app" "app--abc1234" = Ok None
  /\ deactivateRevision client "rg" "app" [] "app--abc1234" initial
     = (Throw TypeError,
        mkState []
          [CallDeactivate "rg" "app" "app--abc1234";
           CallGetRevision "rg" "app" "app--abc1234"] []).
Proof.
  intros client. split; [reflexivity|]. split; [reflexivity|]. split; [reflexivity|].
  apply (deactivateRevision_revision_missing client "rg" "app" [] "app--abc1234"
           initial); reflexivity.
Defined.

Lemma deactivateRevision_request_rejected_witness :
  let client :=
    fixed_client (Ok sample_snapshot) (Ok tt) (Ok None)
      (Throw (ClientError "not found")) in
  target_weight [] "app--abc1234" = Num 0
  /\ cp_deactivateRevision client [] "rg" "app" "app--abc1234"
     = Throw (ClientError "not found")
  /\ deactivateRevision client "rg" "app" [] "app--abc1234" initial
     = (Throw (ClientError "not found"),
        mkState [] [CallDeactivate "rg" "app" "app--abc1234"] []).
Proof.
  intros client. split; [reflexivity|]. split; [reflexivity|].
  apply (deactivateRevision_request_rejected client "rg" "app" [] "app--abc1234"
           initial); reflexivity.
Defined.


(** The weights 5 and -5 of [cancelling_traffic] sum to zero: the
    deactivation is requested although the revision has entries with
    traffic. *)
Example deactivateRevision_cancelling_weights :
  calls (snd (deactivateRevision (sample_client sample_snapshot) "rg" "app"
                cancelling_traffic "app--abc1234" initial))
  = [CallDeactivate "rg" "app" "app--abc1234";
     CallGetRevision "rg" "app" "app--abc1234"].
Proof. reflexivity. Qed.

Lemma reconcile_again_witness :
  read_array (heap sample_state) sample_array = Some sample_entries
  /\ exists out s1 carried,
       reconcileTraffic (Some "app--old1") "app--abc1234" sample_array sample_state
       = (Ok out, s1)
       /\ read_array (heap s1) out = Some (carried ++ [new_entry "app--abc1234"])
       /\ forall latest' name',
            exists out' s2,
              reconcileTraffic latest' name' out s1 = (Ok out', s2)
              /\ read_array (heap s2) out' = Some (carried ++ [new_entry name']).
Proof.
  split; [reflexivity|].
  apply (reconcile_again sample_state sample_array sample_entries). reflexivity.
Defined.

Lemma reconcile_output_shape_witness :
  read_array (heap sample_state) sample_array = Some sample_entries
  /\ exists out s' carried,
       reconcileTraffic (Some "app--old1") "app--abc1234" sample_array sample_state
       = (Ok out, s')
       /\ read_array (heap s') out = Some (carried ++ [new_entry "app--abc1234"])
       /\ Forall (fun t => exists w, weight t = Some w /\ w <> 0) carried
       /\ map label carried = map label (List.filter carried_over sample_entries)
       /\ length out = S (length (List.filter carried_over sample_entries))
       /\ (length out <= S (length sample_array))%nat.
Proof.
  split; [reflexivity|].
  apply (reconcile_output_shape sample_state sample_array sample_entries). reflexivity.
Defined.

Lemma reconcile_without_alias_witness :
  let s :=
    mkState
      [ mkTrafficWeight (Some "app--old0") (Some 100) (Some false) None;
        mkTrafficWeight None (Some 0) (Some true) None ] [] [] in
  let vs :=
    [ mkTrafficWeight (Some "app--old0") (Some 100) (Some false) None;
      mkTrafficWeight None (Some 0) (Some true) None ] in
  read_array (heap s) [0%nat; 1%nat] = Some vs
  /\ Forall (fun t => carried_over t = true -> latestRevision t <> Some true) vs
  /\ exists out s',
       reconcileTraffic (Some "app--old1") "app--abc1234" [0%nat; 1%nat] s = (Ok out, s')
       /\ read_array (heap s') out
          = Some (List.filter carried_over vs ++ [new_entry "app--abc1234"])
       /\ read_array (heap s') [0%nat; 1%nat] = Some vs.
Proof.
  intros s vs.
  assert (H : Forall (fun t => carried_over t = true -> latestRevision t <> Some true) vs).
  { repeat constructor; simpl; intros; discriminate. }
  split; [reflexivity|]. split; [exact H|].
  apply (reconcile_without_alias s [0%nat; 1%nat] vs); [reflexivity | exact H].
Defined.

Lemma submitted_update_witness :
  let client := sample_client sample_snapshot in
  In (CallUpdate "rg" "app" sample_body) (calls (snd (main client sample_taskParams)))
  /\ "rg" = resourceGroup sample_taskParams
  /\ "app" = containerAppName sample_taskParams
  /\ deactivateRevisionMode sample_taskParams = false
  /\ exists snapshot cfg ing vs sc,
       cp_get client [] (resourceGroup sample_taskParams)
         (containerAppName sample_taskParams)
       = Ok snapshot
       /\ snapshot_parts snapshot = Some (cfg, ing, vs, sc)
       /\ sample_body
          = mkEnvelope
              (mkNetworkConfig (dapr cfg)
                 (if truthy_boolean (external ing)
                  then
                    Some (mkIngressConfig (Some true) (targetPort ing)
                            (map (pinned (latestRevisionName snapshot))
                               (List.filter carried_over vs)
                             ++ [new_entry (composed_name sample_taskParams)])
                            (match customDomains ing with
                             | Some ds => ds
                             | None => []
                             end))
                  else None)
                 "Multiple")
              (location snapshot) (managedEnvironmentId snapshot)
              (mkEnvelopeTemplate
                 [mkContainerConfig (containerAppName sample_taskParams)
                    (imageName sample_taskParams)]
                 (mkScaleConfig (maxReplicas sc) (minReplicas sc)
                    [mkScaleRule "httpscalingrule" "http"
                       [("concurrentRequests", "50")]])
                 (revisionNameSuffix sample_taskParams)).
Proof.
  intros client.
  assert (H : In (CallUpdate "rg" "app" sample_body)
                (calls (snd (main client sample_taskParams)))).
  { right. left. reflexivity. }
  split; [exact H|].
  apply (submitted_update client sample_taskParams "rg" "app" sample_body H).
Defined.
